(** * binance-dca-bot: the order executor, the weight calculator, the
      indicator adapter and the start-up loop of [src/bot.js] and
      [src/services/ta-api.js], embedded shallowly.

    JavaScript numbers are IEEE-754 binary64 values: they are modelled by
    Rocq's primitive floats, whose operations are the same binary64
    operations.  Calls to the collaborators (exchange client, indicator
    source, notification channels, persistence, timer library) are recorded,
    in order, in a trace; what a collaborator answers is a function of the
    trace so far, so every theorem holds for every behaviour of the
    collaborators. *)

From Stdlib Require Import ZArith List String Bool Lia.
From Stdlib Require Import Floats DecimalString.
Import ListNotations.

Set Warnings "-inexact-float".

Local Open Scope list_scope.
Local Open Scope string_scope.

(* ================================================================== *)
(** ** JavaScript numbers and [Number.prototype.toFixed] *)

Module Js.

(** A value that is [undefined] or a number, used where the program only
    does arithmetic or a truthiness test on it. *)
Definition to_number (v : option float) : float :=
  match v with
  | Some x => x
  | None => nan            (* ToNumber(undefined) *)
  end.

(** The number is [NaN]. *)
Definition isNaN (x : float) : Prop := Prim2SF x = S754_nan.

(** Truthiness of a number: every number but [0], [-0] and [NaN]. *)
Definition truthy_num (x : float) : bool :=
  negb (PrimFloat.eqb x 0 || PrimFloat.is_nan x).

Definition truthy (v : option float) : bool :=
  match v with
  | Some x => truthy_num x
  | None => false
  end.

(** Truthiness of a string: every string but the empty one.  An absent
    string property is represented by the empty string where the program
    only tests it with [!]. *)
Definition truthy_str (s : string) : bool :=
  negb (s =? "").

(** The result of [x.toFixed(2)].  Either the digits of the integer [n]
    nearest to [100 * |x|] with a sign, printed with a point before the last
    two digits; or, when [x] is not finite or [|x| >= 1e21], the string
    [Number::toString(x)], kept as the number it denotes. *)
Inductive fixed :=
| FixedDigits (neg : bool) (n : Z)
| FixedToString (x : float).

(** The integer [n] for which [n / 100 - m * 2^e] is as close to zero as
    possible, the larger one when there are two. *)
Definition nearest_hundredths (m : positive) (e : Z) : Z :=
  if (0 <=? e)%Z then (100 * Zpos m * 2 ^ e)%Z
  else ((200 * Zpos m + 2 ^ (- e)) / 2 ^ (- e + 1))%Z.

Definition toFixed2 (x : float) : fixed :=
  match Prim2SF x with
  | S754_nan | S754_infinity _ => FixedToString x
  | S754_zero _ => FixedDigits false 0
  | S754_finite s m e =>
      if (1e21 <=? PrimFloat.abs x)%float then FixedToString x
      else FixedDigits s (nearest_hundredths m e)
  end.

(** The characters of a [FixedDigits] result: the digits of [n], padded on
    the left with zeros to three characters, with the point inserted before
    the last two. *)
Definition pad3 (m : string) : string :=
  match String.length m with
  | 0%nat => "000" ++ m
  | 1%nat => "00" ++ m
  | 2%nat => "0" ++ m
  | _ => m
  end.

Definition digits_string (neg : bool) (n : Z) : string :=
  let m := pad3 (NilEmpty.string_of_uint (N.to_uint (Z.to_N n))) in
  let k := String.length m in
  (if neg then "-" else "")
    ++ substring 0 (k - 2) m ++ "." ++ substring (k - 2) 2 m.

(** The characters of a [toFixed] result, where the model has them: the
    digits form and the three non-finite numbers. *)
Definition fixed_string (f : fixed) : option string :=
  match f with
  | FixedDigits neg n => Some (digits_string neg n)
  | FixedToString x =>
      match Prim2SF x with
      | S754_nan => Some "NaN"
      | S754_infinity false => Some "Infinity"
      | S754_infinity true => Some "-Infinity"
      | _ => None
      end
  end.

(** The values the spend amount of an order takes in [placeOrder]:
    [undefined], a number of the configuration, or a [toFixed] string. *)
Inductive value :=
| Undefined
| Num (x : float)
| Str (f : fixed).

Definition of_option (v : option float) : value :=
  match v with
  | Some x => Num x
  | None => Undefined
  end.

(** [v == 0].  [undefined == 0] is false; a number is compared as a number;
    a string is converted by ToNumber first: a digits string denotes zero
    exactly when all its digits are zero, and [Number::toString(x)] denotes
    [x]. *)
Definition loose_eq_zero (v : value) : bool :=
  match v with
  | Undefined => false
  | Num x => PrimFloat.eqb x 0
  | Str (FixedDigits _ n) => (n =? 0)%Z
  | Str (FixedToString x) => PrimFloat.eqb x 0
  end.

End Js.

(* ================================================================== *)
(** ** Data model *)

(** The [weight] object of a trade.  Its properties are only used in
    arithmetic; one that is missing counts as NaN there. *)
Record weightSpec := {
  maxATHFactor : float;
  ATH : float;
  mayerMultipleAvg : float;
  mayerMultipleMax : float
}.

(** An entry of [TRADES].  [quantity] and [quoteOrderQty] are numbers or
    absent; [asset] and [currency] are strings, the empty string standing for
    an absent one as well ([runBot] skips both alike before any use);
    [schedule] is a cron expression or absent; [weight] is an object or
    absent ([weight != null]). *)
Record trade := {
  asset : string;
  currency : string;
  quantity : option float;
  quoteOrderQty : option float;
  schedule : option string;
  weight : option weightSpec
}.

Record fill := { price : string }.

(** What [binance.marketBuy] resolves to: an order (with [orderId] and
    [fills]) or an error body (with [msg]).  [fills] is empty also when the
    property is absent: reading [fills[0].price] throws in both cases. *)
Record response := {
  orderId : option Z;
  executedQty : string;
  cummulativeQuoteQty : string;
  fills : list fill;
  msg : option string
}.

(** What [binance.getOrderDetails] returns; [totalCost] is the number that
    [details.totalCost * NUM_TRADE_THRESHOLD] multiplies. *)
Record details := {
  d_orderId : option Z;
  totalCost : float
}.

(** An entry of [accountInfo.balances]; [free] is the number that the
    comparison [... > balance.free] converts the property to. *)
Record balance := {
  b_asset : string;
  free : float
}.

(** What [binance.getAccountInfo] resolves to: the account, or an error
    body (with [msg], and then without [balances]). *)
Record accountInfo := {
  a_msg : option string;
  canTrade : bool;
  balances : option (list balance)
}.

(** The body of the indicator source's answer: [error] when the source
    reports one, [value] otherwise. *)
Record smaBody := {
  error : option string;
  value : option float
}.

Inductive fetchOutcome :=
| FetchBody (b : smaBody)
| FetchThrows.                 (* [fetch] or [response.json()] rejects *)

(** The query an indicator fetch carries in its URL, without the secret. *)
Record smaParams := {
  exchange : string;
  symbol : string;
  interval : string;
  period : Z
}.

(** One line of [getBuyDetails], by template, with the values it prints;
    [when] is the text [cronstrue.toString] gives for the schedule, or
    "immediately." for a trade without a schedule. *)
Inductive buyDetail :=
| BuyQuantity (q : option float) (asset currency : string) (when : string)
| BuyQuote (q : option float) (currency asset : string) (when : string).

(** The Telegram messages of the program, by template, with the values
    they print. *)
Inductive message :=
| MsgSkipped (pair : string)
| MsgExecuted (pair : string) (d : details)
| MsgBalanceLow (currency : string) (free : float)
| MsgFailed (pair errorText : string)
| MsgStarted (lines : list buyDetail).

(** The SendGrid mails of the program, by subject. *)
Inductive mail :=
| MailExecuted (pair : string) (r : response)
| MailFailed (pair errorText : string).

(** The calls the program makes on its collaborators.  Console output is
    not a call. *)
Inductive call :=
| Fetch (p : smaParams)
| Sleep (ms : Z)
| GetBookTicker (pair : string)
| MarketBuy (pair : string) (quantity : option float) (quoteOrderQty : Js.value)
| SaveOrder (r : response)
| SendGrid (m : mail)
| Telegram (m : message)
| GetAccountInfo
| ScheduleJob (schedule : string) (t : trade).

Definition trace := list call.

(** What the program throws: the [Error] of [runBot] and of the
    connectivity check, and the [TypeError] of a property read on
    [undefined]. *)
Inductive exn :=
| Error (message : string)
| TypeError (message : string).

(** What [cronstrue.toString] does with a cron expression: it returns its
    description, or it throws when it rejects the expression. *)
Inductive described :=
| Described (text : string)
| Rejected (e : exn).

(** The answers of the collaborators, each a function of the calls made so
    far (the call being answered is the last one); [cronstrue] is a function
    of the expression alone. *)
Record world := {
  cronstrue : string -> described;
  fetch : trace -> fetchOutcome;
  bidPrice : trace -> float;
  marketBuy : trace -> response;
  getOrderDetails : string -> string -> response -> details;
  getAccountInfo : trace -> accountInfo
}.

(** The configuration read at load time.  A key is [null] or a string. *)
Record config := {
  BINANCE_KEY : option string;
  BINANCE_SECRET : option string;
  TRADES : list trade
}.

(* ================================================================== *)
(** ** Computations: a trace and an exception *)

Inductive outcome (A : Type) :=
| Ok (a : A)
| Threw (e : exn).
Arguments Ok {A} a.
Arguments Threw {A} e.

Definition M (A : Type) : Type := trace -> outcome A * trace.

Definition ret {A} (a : A) : M A := fun tr => (Ok a, tr).

Definition throw {A} (e : exn) : M A := fun tr => (Threw e, tr).

Definition bind {A B} (m : M A) (k : A -> M B) : M B :=
  fun tr =>
    match m tr with
    | (Ok a, tr') => k a tr'
    | (Threw e, tr') => (Threw e, tr')
    end.

(** A computation that makes no call. *)
Definition lift {A} (o : outcome A) : M A := fun tr => (o, tr).

(** Make the call [c] and read the collaborator's answer off the trace. *)
Definition perform {A} (c : call) (answer : trace -> A) : M A :=
  fun tr => let tr' := (tr ++ [c])%list in (Ok (answer tr'), tr').

Definition emit (c : call) : M unit := perform c (fun _ => tt).

Declare Scope js_scope.
Delimit Scope js_scope with js.
Notation "x <- m ;; k" := (bind m (fun x => k))
  (at level 61, m at next level, right associativity) : js_scope.
Notation "m ;;; k" := (bind m (fun _ => k))
  (at level 61, right associativity) : js_scope.
Local Open Scope js_scope.

(** The calls a computation adds to the trace. *)
Definition calls_of {A} (m : M A) (tr : trace) : trace :=
  skipn (List.length tr) (snd (m tr)).

Definition result_of {A} (m : M A) (tr : trace) : outcome A := fst (m tr).

(* ================================================================== *)
(** ** The program *)

(** Number of approximate trades available before warning message. *)
Definition NUM_TRADE_THRESHOLD : float := 5%float.

(** The locals of [calculateWeight], as its DEBUG block prints them. *)
Record weightValues := {
  sma : option float;
  currentPrice : float;
  mayerMultiple : float;
  athFactor : float;
  mayerWeightConstant : float;
  currentWeightMultiple : float;
  mayerFactor : float;
  updatedQuoteOrderQty : Js.fixed
}.

(** The arithmetic of [calculateWeight], from the moving average and the bid
    price it has fetched. *)
Definition weigh (quoteOrderQty : option float) (weight : weightSpec)
    (sma : option float) (currentPrice : float) : weightValues :=
  let mayerMultiple := (currentPrice / Js.to_number sma)%float in
  let athFactor := (maxATHFactor weight - currentPrice / ATH weight)%float in
  let athFactor := (athFactor * athFactor)%float in
  let mayerWeightConstant :=
    (1 / (1 - mayerMultipleAvg weight / mayerMultipleMax weight))%float in
  let currentWeightMultiple :=
    (1 - mayerMultiple / mayerMultipleMax weight)%float in
  let mayerFactor := (mayerWeightConstant * currentWeightMultiple)%float in
  let mayerFactor := if (0 <? mayerFactor)%float then mayerFactor else 0%float in
  let updatedQuoteOrderQty :=
    (Js.to_number quoteOrderQty * mayerFactor * athFactor)%float in
  {| sma := sma;
     currentPrice := currentPrice;
     mayerMultiple := mayerMultiple;
     athFactor := athFactor;
     mayerWeightConstant := mayerWeightConstant;
     currentWeightMultiple := currentWeightMultiple;
     mayerFactor := mayerFactor;
     updatedQuoteOrderQty := Js.toFixed2 updatedQuoteOrderQty |}.

(** The query of [TAAPI.getSMA]: the currency is swapped before the symbol is
    built. *)
Definition getSMA_params (asset currency interval : string) (period : Z)
    : smaParams :=
  let currency := if currency =? "USD" then "USDT" else "USD" in
  {| exchange := "binance";
     symbol := asset ++ "/" ++ currency;
     interval := interval;
     period := period |}.

(** [totalCost * NUM_TRADE_THRESHOLD > free], the test of the low-balance
    warning. *)
Definition lowBalance (totalCost free : float) : bool :=
  (free <? totalCost * NUM_TRADE_THRESHOLD)%float.

(** The text of a failure notification when the exchange gives none. *)
Definition generic_error (pair : string) : string :=
  "Unexpected error placing buy order for " ++ pair.

(** What [runBot] throws on a trade with both sizes. *)
Definition conflict_error : exn :=
  Error "Error: You can not have both quantity and quoteOrderQty options at the same time.".

Section Bot.

Variable W : world.
Variable C : config.

(** The loop [for (let tries = 1; tries < 3; tries++)] of [getSMA]; [n]
    bounds the iterations that are left.  Falling out of the loop returns
    [undefined]. *)
Fixpoint getSMA_loop (params : smaParams) (n : nat) (tries : Z)
    : M (option float) :=
  match n with
  | O => ret None
  | S n' =>
      if (tries <? 3)%Z then
        r <- perform (Fetch params) (fetch W) ;;
        match r with
        | FetchBody responseObj =>
            match error responseObj with
            | Some _ =>
                emit (Sleep (15000 * tries)) ;;;
                getSMA_loop params n' (tries + 1)
            | None => ret (value responseObj)
            end
        | FetchThrows => getSMA_loop params n' (tries + 1)
        end
      else ret None
  end.

(** [TAAPI.getSMA]: at most two fetches of the same query; the value of the
    first body without an error, or [undefined]. *)
Definition getSMA (asset currency interval : string) (period : Z)
    : M (option float) :=
  getSMA_loop (getSMA_params asset currency interval period) 2 1.

(** [calculateWeight]: the 200-day moving average, the bid price, then the
    arithmetic; the result is the string that [toFixed(2)] returns. *)
Definition calculateWeight (t : trade) : M Js.value :=
  let pair := asset t ++ currency t in
  sma <- getSMA (asset t) (currency t) "1d" 200 ;;
  currentPrice <- perform (GetBookTicker pair) (bidPrice W) ;;
  match weight t with
  | None => throw (TypeError "Cannot read properties of undefined (reading 'maxATHFactor')")
  | Some w =>
      ret (Js.Str (updatedQuoteOrderQty (weigh (quoteOrderQty t) w sma currentPrice)))
  end.

(** [weight != null && currency === "USD"]. *)
Definition weighted (t : trade) : bool :=
  match weight t with
  | Some _ => currency t =? "USD"
  | None => false
  end.

(** [if (response.orderId)]. *)
Definition truthy_orderId (r : response) : bool :=
  match orderId r with
  | Some n => negb (n =? 0)%Z
  | None => false
  end.

(** [response.msg || `Unexpected error placing buy order for ${pair}`]. *)
Definition errorText (r : response) (pair : string) : string :=
  match msg r with
  | Some m => if Js.truthy_str m then m else generic_error pair
  | None => generic_error pair
  end.

(** The conditional expression that initialises [updatedQuoteOrderQty] in
    [placeOrder]. *)
Definition resolveSpend (t : trade) : M Js.value :=
  if weighted t then calculateWeight t
  else ret (Js.of_option (quoteOrderQty t)).

(** [placeOrder]: one firing of a trade. *)
Definition placeOrder (t : trade) : M unit :=
  let pair := asset t ++ currency t in
  updatedQuoteOrderQty <- resolveSpend t ;;
  if Js.loose_eq_zero updatedQuoteOrderQty then
    emit (Telegram (MsgSkipped pair))
  else
    response <- perform (MarketBuy pair (quantity t) updatedQuoteOrderQty)
                        (marketBuy W) ;;
    if truthy_orderId response then
      match fills response with
      | [] => throw (TypeError "Cannot read properties of undefined (reading 'price')")
      | _ :: _ =>
          emit (SaveOrder response) ;;;
          emit (SendGrid (MailExecuted pair response)) ;;;
          let details := getOrderDetails W (asset t) (currency t) response in
          emit (Telegram (MsgExecuted pair details)) ;;;
          accountInfo <- perform GetAccountInfo (getAccountInfo W) ;;
          match balances accountInfo with
          | None => throw (TypeError "Cannot read properties of undefined (reading 'find')")
          | Some bs =>
              match find (fun item => b_asset item =? currency t) bs with
              | None => throw (TypeError "Cannot read properties of undefined (reading 'free')")
              | Some balance =>
                  if lowBalance (totalCost details) (free balance)
                  then emit (Telegram (MsgBalanceLow (currency t) (free balance)))
                  else ret tt
              end
          end
      end
    else
      let errorText := errorText response pair in
      emit (SendGrid (MailFailed pair errorText)) ;;;
      emit (Telegram (MsgFailed pair errorText)).

(** A key that is neither [null] nor empty. *)
Definition truthy_key (k : option string) : bool :=
  match k with
  | Some s => Js.truthy_str s
  | None => false
  end.

(** [checkForParameters]: the keys and a non-empty list of trades. *)
Definition checkForParameters : bool :=
  if negb (truthy_key (BINANCE_KEY C)) || negb (truthy_key (BINANCE_SECRET C))
  then false
  else if (List.length (TRADES C) =? 0)%nat then false
  else true.

(** [checkForBinanceConnectivity]: throws the message of an error body,
    and tells whether the account can trade otherwise. *)
Definition checkForBinanceConnectivity : M bool :=
  accountInfo <- perform GetAccountInfo (getAccountInfo W) ;;
  match a_msg accountInfo with
  | Some m =>
      if Js.truthy_str m then throw (Error m)
      else ret (canTrade accountInfo)
  | None => ret (canTrade accountInfo)
  end.

(** The tests of the loop body of [runBot] on one trade:
    [(!quantity && !quoteOrderQty) || !asset || !currency], which skips the
    trade, then [quantity && quoteOrderQty], which throws, then [!schedule]. *)
Definition invalid (t : trade) : bool :=
  (negb (Js.truthy (quantity t)) && negb (Js.truthy (quoteOrderQty t)))
  || negb (Js.truthy_str (asset t))
  || negb (Js.truthy_str (currency t)).

Definition conflicting (t : trade) : bool :=
  Js.truthy (quantity t) && Js.truthy (quoteOrderQty t).

Definition has_schedule (t : trade) : option string :=
  match schedule t with
  | Some s => if Js.truthy_str s then Some s else None
  | None => None
  end.

(** [schedule ? cronstrue.toString(schedule) : "immediately."], the text
    that the loop of [runBot] logs and that [getBuyDetails] prints for a
    trade: it throws what [cronstrue] throws. *)
Definition describe (t : trade) : outcome string :=
  match has_schedule t with
  | Some s =>
      match cronstrue W s with
      | Described text => Ok text
      | Rejected e => Threw e
      end
  | None => Ok "immediately."
  end.

(** [getBuyDetails]: one line for each trade of the list, skipped ones
    included, built in the order of the list; it throws at the first schedule
    that [cronstrue] rejects. *)
Fixpoint getBuyDetails (trades : list trade) : outcome (list buyDetail) :=
  match trades with
  | [] => Ok []
  | c :: rest =>
      match describe c with
      | Threw e => Threw e
      | Ok when =>
          let line :=
            if Js.truthy (quantity c)
            then BuyQuantity (quantity c) (asset c) (currency c) when
            else BuyQuote (quoteOrderQty c) (currency c) (asset c) when in
          match getBuyDetails rest with
          | Threw e => Threw e
          | Ok lines => Ok (line :: lines)
          end
      end
  end.

(** The loop [for (const trade of TRADES)] of [runBot].  The log line of a
    trade is built, with its call of [cronstrue], before the trade is
    executed or scheduled. *)
Fixpoint runTrades (trades : list trade) : M unit :=
  match trades with
  | [] => ret tt
  | t :: rest =>
      if invalid t then runTrades rest
      else if conflicting t then throw conflict_error
      else
        lift (describe t) ;;;
        match has_schedule t with
        | None => placeOrder t
        | Some s => emit (ScheduleJob s t)
        end ;;;
        runTrades rest
  end.

(** [runBot]: the checks, the loop, and the start-up message, whose text is
    built by [getBuyDetails] before it is sent. *)
Definition runBot : M unit :=
  if negb checkForParameters then ret tt
  else
    ok <- checkForBinanceConnectivity ;;
    if negb ok then ret tt
    else
      runTrades (TRADES C) ;;;
      lines <- lift (getBuyDetails (TRADES C)) ;;
      emit (Telegram (MsgStarted lines)).

End Bot.

(* ================================================================== *)
(** ** Observations on traces *)

Definition is_fetch (c : call) : bool :=
  match c with Fetch _ => true | _ => false end.

Definition is_marketBuy (c : call) : bool :=
  match c with MarketBuy _ _ _ => true | _ => false end.

Definition is_saveOrder (c : call) : bool :=
  match c with SaveOrder _ => true | _ => false end.

Definition is_failure_mail (c : call) : bool :=
  match c with SendGrid (MailFailed _ _) => true | _ => false end.

Definition is_failure_message (c : call) : bool :=
  match c with Telegram (MsgFailed _ _) => true | _ => false end.

Definition is_lowBalance_message (c : call) : bool :=
  match c with Telegram (MsgBalanceLow _ _) => true | _ => false end.

(** The calls [calculateWeight] can make: indicator fetches, the back-off
    sleeps between them, and the ticker read. *)
Definition is_indicator_call (c : call) : bool :=
  match c with
  | Fetch _ | Sleep _ | GetBookTicker _ => true
  | _ => false
  end.

(** An indicator answer that makes [getSMA] try again. *)
Definition failing (o : fetchOutcome) : bool :=
  match o with
  | FetchThrows => true
  | FetchBody b => match error b with Some _ => true | None => false end
  end.

Definition is_notification (c : call) : bool :=
  match c with
  | SendGrid _ | Telegram _ => true
  | _ => false
  end.

(** What a call made under [getSMA], or under [calculateWeight], can be. *)
Definition sma_call (p : smaParams) (c : call) : Prop :=
  match c with
  | Fetch p' => p' = p
  | Sleep _ => True
  | _ => False
  end.

Definition weight_call (p : smaParams) (pair : string) (c : call) : Prop :=
  match c with
  | Fetch p' => p' = p
  | Sleep _ => True
  | GetBookTicker pair' => pair' = pair
  | _ => False
  end.

(** What a call made by [placeOrder] after the spend amount [u] is resolved
    can be: no indicator call and no timer, and an order only for the pair,
    the quantity and the amount [u]. *)
Definition order_call (pair : string) (q : option float) (u : Js.value)
    (c : call) : Prop :=
  match c with
  | Fetch _ | Sleep _ | GetBookTicker _ | ScheduleJob _ _ => False
  | MarketBuy pair' q' u' => pair' = pair /\ q' = q /\ u' = u
  | _ => True
  end.

(** An indicator fetch, if [c] is one, asks for the symbol [s]. *)
Definition fetch_symbol (s : string) (c : call) : Prop :=
  match c with
  | Fetch p => symbol p = s
  | _ => True
  end.

(** The trade [t] with its weight replaced. *)
Definition with_weight (t : trade) (w : option weightSpec) : trade :=
  {| asset := asset t; currency := currency t;
     quantity := quantity t; quoteOrderQty := quoteOrderQty t;
     schedule := schedule t; weight := w |}.

(** A number that is neither [NaN], nor an infinity, nor a zero. *)
Definition nonzero_finite (x : float) : bool :=
  match Prim2SF x with
  | S754_finite _ _ _ => true
  | _ => false
  end.

(** A number that is neither [NaN] nor an infinity. *)
Definition finite (x : float) : bool :=
  match Prim2SF x with
  | S754_zero _ | S754_finite _ _ _ => true
  | S754_nan | S754_infinity _ => false
  end.

(* ================================================================== *)
(** ** Concrete configurations and collaborators *)

Module Example.

Definition weight_example : weightSpec :=
  {| maxATHFactor := 1.0; ATH := 50000;
     mayerMultipleAvg := 1.2; mayerMultipleMax := 2.4 |}.

(** A weight whose average and maximum multiples are equal. *)
Definition weight_equal : weightSpec :=
  {| maxATHFactor := 1.0; ATH := 50000;
     mayerMultipleAvg := 2.4; mayerMultipleMax := 2.4 |}.

Definition buy (quantity quoteOrderQty : option float)
    (weight : option weightSpec) : trade :=
  {| asset := "BTC"; currency := "USD";
     quantity := quantity; quoteOrderQty := quoteOrderQty;
     schedule := None; weight := weight |}.

Definition trade_static : trade := buy None (Some 100%float) None.
Definition trade_weighted : trade :=
  buy None (Some 100%float) (Some weight_example).
Definition trade_equal : trade :=
  buy None (Some 100%float) (Some weight_equal).
Definition trade_conflict : trade :=
  buy (Some 1%float) (Some 100%float) None.

Definition order_filled : response :=
  {| orderId := Some 42%Z; executedQty := "0.00200000";
     cummulativeQuoteQty := "50.00000000";
     fills := [ {| price := "25000.00000000" |} ]; msg := None |}.

Definition order_rejected : response :=
  {| orderId := None; executedQty := ""; cummulativeQuoteQty := "";
     fills := []; msg := Some "Account has insufficient balance" |}.

Definition sma_answer (v : float) : fetchOutcome :=
  FetchBody {| error := None; value := Some v |}.

(** A [cronstrue] that knows one expression and rejects the others. *)
Definition daily_at_five (s : string) : described :=
  if s =? "0 17 * * *" then Described "At 05:00 PM"
  else Rejected (Error ("Error: cannot describe " ++ s)).

(** Collaborators that give the same answer whenever they are asked. *)
Definition steady (indicator : fetchOutcome) (bid : float) (order : response)
    (cost freeBalance : float) : world :=
  {| cronstrue := daily_at_five;
     fetch := fun _ => indicator;
     bidPrice := fun _ => bid;
     marketBuy := fun _ => order;
     getOrderDetails := fun _ _ r =>
       {| d_orderId := orderId r; totalCost := cost |};
     getAccountInfo := fun _ =>
       {| a_msg := None; canTrade := true;
          balances := Some [ {| b_asset := "BTC"; free := 1 |};
                             {| b_asset := "USD"; free := freeBalance |} ] |} |}.

Definition configured (trades : list trade) : config :=
  {| BINANCE_KEY := Some "key"; BINANCE_SECRET := Some "secret";
     TRADES := trades |}.

Definition trade_scheduled : trade :=
  {| asset := "ETH"; currency := "USD";
     quantity := None; quoteOrderQty := Some 15%float;
     schedule := Some "0 17 * * *"; weight := None |}.

(** The indicator answers 20000, the bid is 25000, orders are filled at a
    total cost of 50 and 100 USD are left. *)
Definition world_filled : world :=
  steady (sma_answer 20000) 25000 order_filled 50 100.

(** The same with 500 USD left. *)
Definition world_funded : world :=
  steady (sma_answer 20000) 25000 order_filled 50 500.

(** The same with every order rejected. *)
Definition world_rejecting : world :=
  steady (sma_answer 20000) 25000 order_rejected 50 100.

(** The indicator source fails whenever it is asked. *)
Definition world_exhausted : world :=
  steady FetchThrows 25000 order_filled 50 100.

(** The bid is three times the moving average, above the maximum multiple. *)
Definition world_high : world :=
  steady (sma_answer 20000) 60000 order_filled 50 100.

End Example.

(* ================================================================== *)
(** ** The order executor before weighting *)

Section Unweighted.

Variable W : world.

(** The [placeOrder] of the listing of [bot.js] that has no weighting: the
    order is submitted at once with the configured sizes, and its answer is
    handled as in the later listing. *)
Definition placeOrder_unweighted (t : trade) : M unit :=
  let pair := asset t ++ currency t in
  response <- perform (MarketBuy pair (quantity t)
                         (Js.of_option (quoteOrderQty t)))
                      (marketBuy W) ;;
  if truthy_orderId response then
    match fills response with
    | [] => throw (TypeError "Cannot read properties of undefined (reading 'price')")
    | _ :: _ =>
        emit (SaveOrder response) ;;;
        emit (SendGrid (MailExecuted pair response)) ;;;
        let details := getOrderDetails W (asset t) (currency t) response in
        emit (Telegram (MsgExecuted pair details)) ;;;
        accountInfo <- perform GetAccountInfo (getAccountInfo W) ;;
        match balances accountInfo with
        | None => throw (TypeError "Cannot read properties of undefined (reading 'find')")
        | Some bs =>
            match find (fun item => b_asset item =? currency t) bs with
            | None => throw (TypeError "Cannot read properties of undefined (reading 'free')")
            | Some balance =>
                if lowBalance (totalCost details) (free balance)
                then emit (Telegram (MsgBalanceLow (currency t) (free balance)))
                else ret tt
            end
        end
    end
  else
    let errorText := errorText response pair in
    emit (SendGrid (MailFailed pair errorText)) ;;;
    emit (Telegram (MsgFailed pair errorText)).

End Unweighted.

(* ================================================================== *)
(** ** Further observations *)

Definition is_sleep (c : call) : bool :=
  match c with Sleep _ => true | _ => false end.

(** The milliseconds a run spends in back-off sleeps. *)
Fixpoint sleep_total (cs : list call) : Z :=
  match cs with
  | [] => 0
  | Sleep ms :: rest => ms + sleep_total rest
  | _ :: rest => sleep_total rest
  end.

(** The timer registration of a trade that has a schedule. *)
Definition schedule_call (t : trade) : list call :=
  match has_schedule t with
  | Some s => [ScheduleJob s t]
  | None => []
  end.

(** A number without a minus sign: NaN, or a zero, a finite number or an
    infinity whose sign bit is clear. *)
Definition nonneg (x : float) : Prop :=
  match Prim2SF x with
  | S754_nan => True
  | S754_zero s | S754_infinity s | S754_finite s _ _ => s = false
  end.

(** A [toFixed] result without a minus sign. *)
Definition fixed_nonneg (f : Js.fixed) : Prop :=
  match f with
  | Js.FixedDigits neg n => neg = false /\ (0 <= n)%Z
  | Js.FixedToString x => nonneg x
  end.


(* ================================================================== *)
(** ** Further configurations and collaborators *)

Module Scenario.

Definition sma_error : fetchOutcome :=
  FetchBody {| error := Some "rate limit"; value := None |}.

(** The collaborators of [Example.world_filled] with another indicator
    source. *)
Definition with_indicator (f : trace -> fetchOutcome) : world :=
  {| cronstrue := cronstrue Example.world_filled;
     fetch := f;
     bidPrice := bidPrice Example.world_filled;
     marketBuy := marketBuy Example.world_filled;
     getOrderDetails := getOrderDetails Example.world_filled;
     getAccountInfo := getAccountInfo Example.world_filled |}.

(** The same with another account. *)
Definition with_account (a : accountInfo) : world :=
  {| cronstrue := cronstrue Example.world_filled;
     fetch := fetch Example.world_filled;
     bidPrice := bidPrice Example.world_filled;
     marketBuy := marketBuy Example.world_filled;
     getOrderDetails := getOrderDetails Example.world_filled;
     getAccountInfo := fun _ => a |}.

(** The indicator source reports an error at the first fetch and answers
    21000 from the second on. *)
Definition world_flaky : world :=
  with_indicator (fun h =>
    if (List.length (filter is_fetch h) <=? 1)%nat then sma_error
    else Example.sma_answer 21000).

(** The first fetch throws and the source answers 21000 from the second
    on. *)
Definition world_dropped : world :=
  with_indicator (fun h =>
    if (List.length (filter is_fetch h) <=? 1)%nat then FetchThrows
    else Example.sma_answer 21000).

(** The indicator source reports an error whenever it is asked. *)
Definition world_limited : world := with_indicator (fun _ => sma_error).

(** The exchange answers the connectivity check with an error body. *)
Definition world_refused : world :=
  with_account {| a_msg := Some "Invalid API-key, IP, or permissions for action.";
                  canTrade := false; balances := None |}.

(** The account may not trade. *)
Definition world_disabled : world :=
  with_account {| a_msg := None; canTrade := false; balances := Some [] |}.

(** An order with an identifier and no fill. *)
Definition order_unfilled : response :=
  {| orderId := Some 43%Z; executedQty := "0.00000000";
     cummulativeQuoteQty := "0.00000000"; fills := []; msg := None |}.

Definition world_unfilled : world :=
  Example.steady (Example.sma_answer 20000) 25000 order_unfilled 50 100.

(** The ticker has no bid price: the property read is [undefined], NaN in
    the arithmetic. *)
Definition world_no_ticker : world :=
  Example.steady (Example.sma_answer 20000) nan Example.order_filled 50 100.

(** A trade in a currency the account has no balance entry for. *)
Definition trade_euro : trade :=
  {| asset := "BTC"; currency := "EUR";
     quantity := None; quoteOrderQty := Some 100%float;
     schedule := None; weight := None |}.

(** A trade sized by quantity whose [quoteOrderQty] is the number zero. *)
Definition trade_zero_quote : trade :=
  Example.buy (Some 1%float) (Some 0%float) None.

(** A weighted trade sized by quantity. *)
Definition trade_weighted_quantity : trade :=
  Example.buy (Some 1%float) None (Some Example.weight_example).

(** A valid trade whose schedule has the minute 60. *)
Definition trade_minute_sixty : trade :=
  {| asset := "ETH"; currency := "USD";
     quantity := None; quoteOrderQty := Some 15%float;
     schedule := Some "60 17 * * *"; weight := None |}.



End Scenario.

(* ================================================================== *)
(** ** Facts on binary64 arithmetic *)

Module FloatFacts.

Lemma nan_isNaN : Js.isNaN nan.
Proof. reflexivity. Qed.

Lemma div_nan_r (x y : float) : Js.isNaN y -> Js.isNaN (x / y).
Proof.
  unfold Js.isNaN; intros Hy.
  rewrite div_spec, Hy. unfold SF64div, SFdiv.
  destruct (Prim2SF x); reflexivity.
Qed.

Lemma div_nan_l (x y : float) : Js.isNaN x -> Js.isNaN (x / y).
Proof.
  unfold Js.isNaN; intros Hx.
  rewrite div_spec, Hx. reflexivity.
Qed.

Lemma sub_nan_r (x y : float) : Js.isNaN y -> Js.isNaN (x - y).
Proof.
  unfold Js.isNaN; intros Hy.
  rewrite sub_spec, Hy. unfold SF64sub, SFsub.
  destruct (Prim2SF x); reflexivity.
Qed.

Lemma mul_nan_r (x y : float) : Js.isNaN y -> Js.isNaN (x * y).
Proof.
  unfold Js.isNaN; intros Hy.
  rewrite mul_spec, Hy. unfold SF64mul, SFmul.
  destruct (Prim2SF x); reflexivity.
Qed.

Lemma ltb_nan_r (x y : float) : Js.isNaN y -> (x <? y)%float = false.
Proof.
  unfold Js.isNaN; intros Hy.
  rewrite ltb_spec, Hy. unfold SFltb, SFcompare.
  destruct (Prim2SF x); reflexivity.
Qed.

(** A number above zero is not below it. *)
Lemma pos_leb (x : float) : (0 <? x)%float = true -> (0 <=? x)%float = true.
Proof.
  rewrite ltb_spec, leb_spec. unfold SFltb, SFleb.
  destruct (SFcompare (Prim2SF 0) (Prim2SF x)) as [[| |]|]; congruence.
Qed.

Lemma leb_not_ltb (x : float) : (0 <=? x)%float = true -> (x <? 0)%float = false.
Proof.
  rewrite ltb_spec, leb_spec. unfold SFltb, SFleb.
  change (Prim2SF 0) with (S754_zero false).
  destruct (Prim2SF x) as [s|s| |s m e]; try destruct s; simpl; congruence.
Qed.

Lemma leb_not_nan (x : float) : (0 <=? x)%float = true -> ~ Js.isNaN x.
Proof.
  unfold Js.isNaN. rewrite leb_spec. intros H E. rewrite E in H. discriminate H.
Qed.

(** A finite number times zero is a zero, and a zero times a finite number
    is a zero. *)
Lemma mul_zero_r (x z : float) :
  finite x = true -> (exists s, Prim2SF z = S754_zero s) ->
  exists s, Prim2SF (x * z) = S754_zero s.
Proof.
  unfold finite. intros Hx [s Hz].
  rewrite mul_spec, Hz. unfold SF64mul, SFmul.
  destruct (Prim2SF x); try discriminate; eauto.
Qed.

Lemma mul_zero_l (z y : float) :
  (exists s, Prim2SF z = S754_zero s) -> finite y = true ->
  exists s, Prim2SF (z * y) = S754_zero s.
Proof.
  unfold finite. intros [s Hz] Hy.
  rewrite mul_spec, Hz. unfold SF64mul, SFmul.
  destruct (Prim2SF y); try discriminate; eauto.
Qed.

Lemma toFixed2_zero (z : float) :
  (exists s, Prim2SF z = S754_zero s) -> Js.toFixed2 z = Js.FixedDigits false 0.
Proof.
  intros [s Hz]. unfold Js.toFixed2. rewrite Hz. reflexivity.
Qed.

Lemma div_eucl_self_shift (m : positive) :
  Z.div_eucl (Z.shiftl (Zpos m) 53) (Zpos m) = (2 ^ 53, 0)%Z.
Proof.
  rewrite Z.shiftl_mul_pow2 by lia. rewrite Z.mul_comm.
  pose proof (Z.div_mul (2 ^ 53) (Zpos m) ltac:(lia)) as Hq.
  pose proof (Z.mod_mul (2 ^ 53) (Zpos m) ltac:(lia)) as Hr.
  unfold Z.div, Z.modulo in Hq, Hr.
  destruct (Z.div_eucl (2 ^ 53 * Z.pos m) (Z.pos m)) as [q r].
  simpl in Hq, Hr. now subst.
Qed.

(** A finite number that is not a zero, divided by itself, is exactly one. *)
Lemma div_self (x : float) : nonzero_finite x = true -> (x / x)%float = 1%float.
Proof.
  unfold nonzero_finite. intros H. apply Prim2SF_inj. rewrite div_spec.
  destruct (Prim2SF x) as [ | | |s m e]; try discriminate.
  unfold SF64div, SFdiv, SFdiv_core_binary.
  replace (Zdigits2 (Zpos m) + e - (Zdigits2 (Zpos m) + e))%Z with 0%Z by lia.
  replace (e - e)%Z with 0%Z by lia.
  change (Z.min (fexp prec emax 0) 0) with (-53)%Z.
  change (0 - -53)%Z with 53%Z.
  cbv beta iota zeta.
  rewrite div_eucl_self_shift.
  assert (L : new_location (Zpos m) 0 = loc_Exact).
  { unfold new_location, new_location_even, new_location_odd.
    destruct (Z.even (Zpos m)); reflexivity. }
  rewrite L, xorb_nilpotent. vm_compute. reflexivity.
Qed.

(** Any other number divided by itself is NaN. *)
Lemma div_self_nan (x : float) : nonzero_finite x = false -> Js.isNaN (x / x).
Proof.
  unfold nonzero_finite, Js.isNaN. intros H. rewrite div_spec.
  destruct (Prim2SF x); try discriminate; reflexivity.
Qed.

End FloatFacts.

(** With a non-negative exponent [100 * m * 2^e] is an integer itself. *)
Lemma nearest_hundredths_exact (m : positive) (e : Z) :
  (0 <= e)%Z -> Js.nearest_hundredths m e = (100 * Zpos m * 2 ^ e)%Z.
Proof.
  intros He. unfold Js.nearest_hundredths.
  destruct (0 <=? e)%Z eqn:E; [reflexivity|].
  apply Z.leb_gt in E. lia.
Qed.

(** [nearest_hundredths m e] is an integer nearest to [100 * m * 2^e]: twice
    its distance to it is at most one, and on a tie it is the larger of the
    two nearest integers. *)
Lemma nearest_hundredths_spec (m : positive) (e : Z) :
  (e < 0)%Z ->
  let n := Js.nearest_hundredths m e in
  let k := (- e)%Z in
  (2 * (n * 2 ^ k) <= 200 * Zpos m + 2 ^ k < 2 * ((n + 1) * 2 ^ k))%Z.
Proof.
  intros He n k. subst n k. unfold Js.nearest_hundredths.
  destruct (0 <=? e)%Z eqn:E; [apply Z.leb_le in E; lia|].
  replace (- e + 1)%Z with (Z.succ (- e)) by lia.
  rewrite Z.pow_succ_r by lia.
  assert (Hp : (0 < 2 ^ (- e))%Z) by (apply Z.pow_pos_nonneg; lia).
  set (d := (2 * 2 ^ (- e))%Z).
  assert (Hd : (0 < d)%Z) by (unfold d; lia).
  pose proof (Z.mul_div_le (200 * Zpos m + 2 ^ (- e)) d Hd) as H1.
  pose proof (Z.mul_succ_div_gt (200 * Zpos m + 2 ^ (- e)) d Hd) as H2.
  unfold d in *. nia.
Qed.

(* ================================================================== *)
(** ** The weight calculator *)

(** C1.  On the inputs quoteOrderQty = 100, weight = (maxATHFactor 1.0,
    ATH 50000, mayerMultipleAvg 1.2, mayerMultipleMax 2.4), moving average
    20000 and current price 25000, the calculation has mayerMultiple = 1.25,
    mayerWeightConstant = 2, currentWeightMultiple = 1 - 1.25 / 2.4,
    mayerFactor = mayerWeightConstant * currentWeightMultiple,
    athFactor = 0.25 and returns the product
    quoteOrderQty * mayerFactor * athFactor printed with two decimals, the
    string 23.96; [calculateWeight] returns it after one indicator fetch and
    one ticker read. *)
Theorem weight_example_values :
  let v := weigh (Some 100%float) Example.weight_example
             (Some 20000%float) 25000%float in
  mayerMultiple v = 1.25%float
  /\ mayerWeightConstant v = 2%float
  /\ currentWeightMultiple v = (1 - 1.25 / 2.4)%float
  /\ mayerFactor v = (mayerWeightConstant v * currentWeightMultiple v)%float
  /\ athFactor v = ((1.0 - 25000 / 50000) * (1.0 - 25000 / 50000))%float
  /\ athFactor v = 0.25%float
  /\ updatedQuoteOrderQty v
     = Js.toFixed2 (100 * mayerFactor v * athFactor v)%float
  /\ Js.fixed_string (updatedQuoteOrderQty v) = Some "23.96"
  /\ calculateWeight
       (Example.steady (Example.sma_answer 20000) 25000
          Example.order_filled 50 100)
       Example.trade_weighted []
     = (Ok (Js.Str (updatedQuoteOrderQty v)),
        [Fetch (getSMA_params "BTC" "USD" "1d" 200); GetBookTicker "BTCUSD"]).
Proof.
  vm_compute. repeat split; reflexivity.
Qed.

(** C9.  Whatever the weight parameters, the moving average (absent or not)
    and the current price, the mayerFactor that enters the product of the
    adjusted spend, the value after the clamp, is at least zero: it is not
    negative and it is not NaN. *)
Theorem mayerFactor_not_negative :
  forall (q : option float) (w : weightSpec) (sma : option float) (p : float),
    let v := weigh q w sma p in
    (0 <=? mayerFactor v)%float = true
    /\ (mayerFactor v <? 0)%float = false
    /\ ~ Js.isNaN (mayerFactor v)
    /\ updatedQuoteOrderQty v
       = Js.toFixed2 (Js.to_number q * mayerFactor v * athFactor v)%float.
Proof.
  intros q w sma0 p v.
  assert (H : (0 <=? mayerFactor v)%float = true).
  { subst v. unfold weigh; cbn [mayerFactor].
    match goal with
    | |- context [if (0 <? ?x)%float then _ else _] =>
        destruct (0 <? x)%float eqn:E
    end.
    - now apply FloatFacts.pos_leb.
    - reflexivity. }
  repeat split.
  - exact H.
  - now apply FloatFacts.leb_not_ltb.
  - now apply FloatFacts.leb_not_nan.
Qed.

(* ================================================================== *)
(** ** Runs of the indicator adapter and of the weight calculator *)

Lemma skipn_length_app {A} (l cs : list A) :
  skipn (List.length l) (l ++ cs)%list = cs.
Proof. induction l; simpl; auto. Qed.

Lemma calls_of_run {A} (m : M A) (tr cs : trace) (o : outcome A) :
  m tr = (o, (tr ++ cs)%list) -> calls_of m tr = cs /\ result_of m tr = o.
Proof.
  intros H. unfold calls_of, result_of. rewrite H. simpl.
  split; [apply skipn_length_app | reflexivity].
Qed.

Lemma sma_call_weight_call p pair cs :
  Forall (sma_call p) cs -> Forall (weight_call p pair) cs.
Proof.
  apply Forall_impl. intros [] H; simpl in *; auto; contradiction.
Qed.

Lemma weight_call_indicator p pair cs :
  Forall (weight_call p pair) cs -> forallb is_indicator_call cs = true.
Proof.
  intros H. apply forallb_forall. rewrite Forall_forall in H.
  intros c Hc. specialize (H c Hc). destruct c; simpl in *; auto; contradiction.
Qed.

(** No call of the weight calculator is counted by a filter that rejects the
    indicator calls. *)
Lemma filter_indicator_nil (f : call -> bool) (cs : list call) :
  (forall c, is_indicator_call c = true -> f c = false) ->
  forallb is_indicator_call cs = true -> filter f cs = [].
Proof.
  intros Hf. induction cs as [|c cs IH]; simpl; auto.
  intros H. apply andb_prop in H as [Hc Hcs].
  rewrite (Hf c Hc). auto.
Qed.

Section Runs.

Variable W : world.

(** The loop of [getSMA] never throws, and only fetches and sleeps. *)
Lemma getSMA_loop_run (p : smaParams) (n : nat) :
  forall (tries : Z) (tr : trace),
  exists v cs,
    getSMA_loop W p n tries tr = (Ok v, (tr ++ cs)%list)
    /\ Forall (sma_call p) cs.
Proof.
  induction n as [|n IH]; intros tries tr; cbn [getSMA_loop].
  - exists None, []. rewrite app_nil_r. split; [reflexivity | constructor].
  - destruct (tries <? 3)%Z.
    + unfold bind, emit, perform. cbn -[Z.mul Z.add].
      destruct (fetch W (tr ++ [Fetch p])%list) as [b|].
      * destruct (error b).
        -- destruct (IH (tries + 1)%Z
                      ((tr ++ [Fetch p]) ++ [Sleep (15000 * tries)])%list)
             as (v & cs & E & F).
           exists v, (Fetch p :: Sleep (15000 * tries) :: cs).
           rewrite E. rewrite <- !app_assoc. simpl.
           split; [reflexivity | repeat constructor; simpl; auto].
        -- exists (value b), [Fetch p].
           split; [reflexivity | repeat constructor; simpl; auto].
      * destruct (IH (tries + 1)%Z (tr ++ [Fetch p])%list) as (v & cs & E & F).
        exists v, (Fetch p :: cs).
        rewrite E. rewrite <- !app_assoc. simpl.
        split; [reflexivity | repeat constructor; simpl; auto].
    + exists None, []. rewrite app_nil_r. split; [reflexivity | constructor].
Qed.

(** The bound on the iterations is enough: with more of it the loop does
    the same. *)
Lemma getSMA_loop_bound (p : smaParams) (k : nat) (tr : trace) :
  getSMA_loop W p (2 + k) 1 tr = getSMA_loop W p 2 1 tr.
Proof.
  simpl. unfold bind, emit, perform. simpl.
  repeat match goal with
  | |- context [match fetch W ?h with _ => _ end] => destruct (fetch W h) as [?b|]
  | |- context [match error ?b with _ => _ end] => destruct (error b)
  | |- _ => progress simpl
  end; try reflexivity; destruct k; reflexivity.
Qed.

(** [getSMA] starts with a fetch. *)
Lemma getSMA_run (asset currency interval : string) (period : Z) (tr : trace) :
  let p := getSMA_params asset currency interval period in
  exists v rest,
    getSMA W asset currency interval period tr
    = (Ok v, (tr ++ Fetch p :: rest)%list)
    /\ Forall (sma_call p) rest.
Proof.
  intros p. unfold getSMA. fold p.
  change (getSMA_loop W p 2 1) with
    (r <- perform (Fetch p) (fetch W) ;;
     match r with
     | FetchBody responseObj =>
         match error responseObj with
         | Some _ => emit (Sleep 15000) ;;; getSMA_loop W p 1 2
         | None => ret (value responseObj)
         end
     | FetchThrows => getSMA_loop W p 1 2
     end).
  unfold bind, emit, perform. cbn -[getSMA_loop].
  destruct (fetch W (tr ++ [Fetch p])%list) as [b|].
  - destruct (error b).
    + destruct (getSMA_loop_run p 1 2%Z
                  ((tr ++ [Fetch p]) ++ [Sleep 15000])%list)
        as (v & cs & E & F).
      exists v, (Sleep 15000 :: cs).
      rewrite E. rewrite <- !app_assoc. simpl.
      split; [reflexivity | constructor; simpl; auto].
    + exists (value b), []. split; [reflexivity | constructor].
  - destruct (getSMA_loop_run p 1 2%Z (tr ++ [Fetch p])%list)
      as (v & cs & E & F).
    exists v, cs. rewrite E. rewrite <- !app_assoc. simpl.
    split; [reflexivity | assumption].
Qed.

(** When every answer of the indicator source is an error body or an
    exception, the two attempts are used up and [getSMA] returns
    [undefined]. *)
Lemma getSMA_exhausted (asset currency interval : string) (period : Z)
    (tr : trace) :
  (forall h, failing (fetch W h) = true) ->
  result_of (getSMA W asset currency interval period) tr = Ok None
  /\ List.length (filter is_fetch
       (calls_of (getSMA W asset currency interval period) tr)) = 2%nat.
Proof.
  intros Hf. unfold result_of, calls_of, getSMA. simpl.
  unfold bind, emit, perform. simpl.
  set (p := getSMA_params asset currency interval period).
  pose proof (Hf (tr ++ [Fetch p])%list) as H1.
  destruct (fetch W (tr ++ [Fetch p])%list) as [b|]; simpl in H1.
  - destruct (error b); [|discriminate]. simpl.
    pose proof (Hf (((tr ++ [Fetch p]) ++ [Sleep 15000]) ++ [Fetch p])%list) as H2.
    destruct (fetch W _) as [b2|]; simpl in H2.
    + destruct (error b2); [|discriminate]. simpl.
      rewrite <- !app_assoc. rewrite skipn_length_app. auto.
    + simpl. rewrite <- !app_assoc. rewrite skipn_length_app. auto.
  - pose proof (Hf ((tr ++ [Fetch p]) ++ [Fetch p])%list) as H2.
    destruct (fetch W _) as [b2|]; simpl in H2.
    + destruct (error b2); [|discriminate]. simpl.
      rewrite <- !app_assoc. rewrite skipn_length_app. auto.
    + simpl. rewrite <- !app_assoc. rewrite skipn_length_app. auto.
Qed.

End Runs.

(* ================================================================== *)
(** ** Runs of the order executor *)

Section Orders.

Variable W : world.

Lemma calculateWeight_run (t : trade) (w : weightSpec) (tr : trace) :
  weight t = Some w ->
  let p := getSMA_params (asset t) (currency t) "1d" 200 in
  let pair := asset t ++ currency t in
  exists v rest,
    getSMA W (asset t) (currency t) "1d" 200 tr
    = (Ok v, (tr ++ Fetch p :: rest)%list)
    /\ Forall (sma_call p) rest
    /\ calculateWeight W t tr
       = (Ok (Js.Str (updatedQuoteOrderQty
                        (weigh (quoteOrderQty t) w v
                           (bidPrice W (tr ++ (Fetch p :: rest)
                                           ++ [GetBookTicker pair])%list)))),
          (tr ++ (Fetch p :: rest) ++ [GetBookTicker pair])%list).
Proof.
  intros Hw p pair.
  destruct (getSMA_run W (asset t) (currency t) "1d" 200 tr) as (v & rest & E & F).
  fold p in E, F.
  exists v, rest. split; [exact E|]. split; [exact F|].
  unfold calculateWeight, bind. rewrite E.
  unfold perform. cbv beta zeta. rewrite Hw. unfold ret.
  fold pair. rewrite <- !app_assoc. reflexivity.
Qed.

(** Resolving the spend amount never throws.  For a weighted trade it makes
    the calls of [calculateWeight], a fetch first and the ticker read last,
    and yields a [toFixed] string; for any other trade it makes no call and
    yields the configured [quoteOrderQty]. *)
Lemma resolveSpend_run (t : trade) (tr : trace) :
  let p := getSMA_params (asset t) (currency t) "1d" 200 in
  let pair := asset t ++ currency t in
  exists u cs,
    resolveSpend W t tr = (Ok u, (tr ++ cs)%list)
    /\ Forall (weight_call p pair) cs
    /\ if weighted t
       then (exists f, u = Js.Str f)
            /\ (exists rest, cs = (Fetch p :: rest) ++ [GetBookTicker pair])%list
            /\ result_of (calculateWeight W t) tr = Ok u
            /\ calls_of (calculateWeight W t) tr = cs
       else u = Js.of_option (quoteOrderQty t) /\ cs = [].
Proof.
  intros p pair. unfold resolveSpend.
  destruct (weighted t) eqn:Hwt.
  - unfold weighted in Hwt. destruct (weight t) as [w|] eqn:Hw; [|discriminate].
    destruct (calculateWeight_run t w tr Hw) as (v & rest & _ & F & E).
    fold p pair in E, F.
    eexists _, _. split; [exact E|]. split.
    + apply Forall_app. split.
      * constructor; [reflexivity|]. now apply sma_call_weight_call.
      * constructor; [reflexivity | constructor].
    + split; [eauto|]. split; [eauto|].
      destruct (calls_of_run _ _ _ _ E) as [Hc Hr]. split; assumption.
  - exists (Js.of_option (quoteOrderQty t)), [].
    rewrite app_nil_r. repeat split. constructor.
Qed.

(** The firing that is skipped. *)
Lemma placeOrder_skipped (t : trade) (tr tr1 : trace) (u : Js.value) :
  resolveSpend W t tr = (Ok u, tr1) ->
  Js.loose_eq_zero u = true ->
  placeOrder W t tr
  = (Ok tt, (tr1 ++ [Telegram (MsgSkipped (asset t ++ currency t))])%list).
Proof.
  intros E Z. unfold placeOrder, bind. rewrite E, Z. reflexivity.
Qed.

(** The firing whose order is rejected. *)
Lemma placeOrder_rejected (t : trade) (tr tr1 : trace) (u : Js.value) :
  resolveSpend W t tr = (Ok u, tr1) ->
  Js.loose_eq_zero u = false ->
  let pair := asset t ++ currency t in
  let tr2 := (tr1 ++ [MarketBuy pair (quantity t) u])%list in
  let r := marketBuy W tr2 in
  truthy_orderId r = false ->
  placeOrder W t tr
  = (Ok tt, (tr2 ++ [SendGrid (MailFailed pair (errorText r pair));
                     Telegram (MsgFailed pair (errorText r pair))])%list).
Proof.
  intros E Z pair tr2 r Hr. unfold placeOrder, bind. rewrite E, Z.
  unfold emit, perform. cbv beta zeta. fold pair tr2 r. rewrite Hr.
  rewrite <- !app_assoc. reflexivity.
Qed.

(** The firing whose order is filled, up to the balance check. *)
Lemma placeOrder_filled (t : trade) (tr tr1 : trace) (u : Js.value)
    (bs : list balance) (b : balance) :
  resolveSpend W t tr = (Ok u, tr1) ->
  Js.loose_eq_zero u = false ->
  let pair := asset t ++ currency t in
  let tr2 := (tr1 ++ [MarketBuy pair (quantity t) u])%list in
  let r := marketBuy W tr2 in
  let d := getOrderDetails W (asset t) (currency t) r in
  let tr3 := (tr2 ++ [SaveOrder r; SendGrid (MailExecuted pair r);
                      Telegram (MsgExecuted pair d); GetAccountInfo])%list in
  truthy_orderId r = true ->
  fills r <> [] ->
  balances (getAccountInfo W tr3) = Some bs ->
  find (fun item => b_asset item =? currency t) bs = Some b ->
  placeOrder W t tr
  = (Ok tt,
     (tr3 ++ if lowBalance (totalCost d) (free b)
             then [Telegram (MsgBalanceLow (currency t) (free b))]
             else [])%list).
Proof.
  intros E Z pair tr2 r d tr3 Hr Hf Hb Hfind.
  unfold placeOrder, bind. rewrite E, Z.
  unfold emit, perform. cbv beta zeta. fold pair tr2 r. rewrite Hr.
  destruct (fills r) as [|f fs]; [congruence|].
  cbv beta iota zeta. fold d.
  replace ((((tr2 ++ [SaveOrder r]) ++ [SendGrid (MailExecuted pair r)])
              ++ [Telegram (MsgExecuted pair d)]) ++ [GetAccountInfo])%list
    with tr3 by (unfold tr3; rewrite <- !app_assoc; reflexivity).
  rewrite Hb, Hfind.
  destruct (lowBalance (totalCost d) (free b)).
  - reflexivity.
  - unfold ret. rewrite app_nil_r. reflexivity.
Qed.

(** Every firing: the calls of the resolution, then either the skip message
    alone or calls that start with the order for the resolved amount. *)
Lemma placeOrder_run (t : trade) (tr : trace) :
  let p := getSMA_params (asset t) (currency t) "1d" 200 in
  let pair := asset t ++ currency t in
  exists o u cs rest,
    resolveSpend W t tr = (Ok u, (tr ++ cs)%list)
    /\ Forall (weight_call p pair) cs
    /\ (if weighted t
        then (exists f, u = Js.Str f)
             /\ (exists rest, cs = (Fetch p :: rest) ++ [GetBookTicker pair])%list
             /\ result_of (calculateWeight W t) tr = Ok u
             /\ calls_of (calculateWeight W t) tr = cs
        else u = Js.of_option (quoteOrderQty t) /\ cs = [])
    /\ placeOrder W t tr = (o, (tr ++ cs ++ rest)%list)
    /\ Forall (order_call pair (quantity t) u) rest
    /\ if Js.loose_eq_zero u
       then rest = [Telegram (MsgSkipped pair)] /\ o = Ok tt
       else exists rest', rest = MarketBuy pair (quantity t) u :: rest'.
Proof.
  intros p pair.
  destruct (resolveSpend_run t tr) as (u & cs & E & HF & HW).
  fold p pair in HF, HW.
  unfold placeOrder, bind. rewrite E. fold pair.
  destruct (Js.loose_eq_zero u) eqn:Z.
  - exists (Ok tt), u, cs, [Telegram (MsgSkipped pair)].
    unfold emit, perform. cbv beta zeta. rewrite <- !app_assoc, Z.
    repeat split; auto. repeat constructor.
  - unfold emit, perform. cbv beta zeta.
    set (tr2 := ((tr ++ cs) ++ [MarketBuy pair (quantity t) u])%list).
    set (r := marketBuy W tr2).
    set (d := getOrderDetails W (asset t) (currency t) r).
    assert (Hbuy : order_call pair (quantity t) u (MarketBuy pair (quantity t) u))
      by (simpl; auto).
    destruct (truthy_orderId r).
    + destruct (fills r) as [|f fs].
      * exists (Threw (TypeError "Cannot read properties of undefined (reading 'price')")),
          u, cs, [MarketBuy pair (quantity t) u].
        unfold throw, tr2. rewrite <- !app_assoc, Z.
        repeat split; eauto.
      * cbv beta iota zeta.
        set (tr3 := ((((tr2 ++ [SaveOrder r]) ++ [SendGrid (MailExecuted pair r)])
                        ++ [Telegram (MsgExecuted pair d)]) ++ [GetAccountInfo])%list).
        assert (E3 : tr3 = (tr ++ cs ++ [MarketBuy pair (quantity t) u; SaveOrder r;
                              SendGrid (MailExecuted pair r);
                              Telegram (MsgExecuted pair d); GetAccountInfo])%list)
          by (unfold tr3, tr2; rewrite <- !app_assoc; reflexivity).
        destruct (balances (getAccountInfo W tr3)) as [bs|].
        -- destruct (find (fun item => b_asset item =? currency t) bs) as [b|].
           ++ destruct (lowBalance (totalCost d) (free b)).
              ** eexists (Ok tt), u, cs, _. rewrite E3, <- !app_assoc.
                 split; [reflexivity|]. split; [exact HF|]. split; [exact HW|].
      split; [simpl; reflexivity|].
                 split; [|rewrite Z; eauto]. repeat constructor; simpl; auto.
              ** eexists (Ok tt), u, cs, _. unfold ret. rewrite E3.
                 split; [reflexivity|]. split; [exact HF|]. split; [exact HW|].
      split; [reflexivity|].
                 split; [|rewrite Z; eauto]. repeat constructor; simpl; auto.
           ++ eexists (Threw _), u, cs, _. unfold throw. rewrite E3.
              split; [reflexivity|]. split; [exact HF|]. split; [exact HW|].
      split; [reflexivity|].
              split; [|rewrite Z; eauto]. repeat constructor; simpl; auto.
        -- eexists (Threw _), u, cs, _. unfold throw. rewrite E3.
           split; [reflexivity|]. split; [exact HF|]. split; [exact HW|].
      split; [reflexivity|].
           split; [|rewrite Z; eauto]. repeat constructor; simpl; auto.
    + eexists (Ok tt), u, cs, _. unfold tr2. rewrite <- !app_assoc.
      split; [reflexivity|]. split; [exact HF|]. split; [exact HW|].
      split; [simpl; reflexivity|].
      split; [|rewrite Z; eauto]. repeat constructor; simpl; auto.
Qed.

End Orders.

(* ================================================================== *)
(** ** The indicator query *)

Lemma weight_call_fetch_symbol (p : smaParams) (pair : string) (cs : list call) :
  Forall (weight_call p pair) cs -> Forall (fetch_symbol (symbol p)) cs.
Proof.
  apply Forall_impl. intros [] H; simpl in *; auto. now subst.
Qed.

Lemma order_call_fetch_symbol (pair : string) (q : option float) (u : Js.value)
    (s : string) (cs : list call) :
  Forall (order_call pair q u) cs -> Forall (fetch_symbol s) cs.
Proof.
  apply Forall_impl. intros [] H; simpl in *; auto; contradiction.
Qed.

(** C10.  [getSMA] never queries the caller's currency as it is given: the
    symbol is the asset, a slash, and USDT when the currency is USD, USD for
    every other currency, which differs from the caller's currency in both
    cases; every fetch of [getSMA] carries that symbol, and there is at least
    one.  Every indicator fetch of a firing of [placeOrder], which weighs USD
    trades only, asks for the pair asset/USDT. *)
Theorem getSMA_swaps_currency :
  forall (W : world) (a c i : string) (n : Z) (t : trade) (tr : trace),
    let swapped := if c =? "USD" then "USDT" else "USD" in
    let p := getSMA_params a c i n in
    symbol p = a ++ "/" ++ swapped
    /\ swapped <> c
    /\ (c = "USD" -> swapped = "USDT")
    /\ (c <> "USD" -> swapped = "USD")
    /\ Forall (fetch_symbol (a ++ "/" ++ swapped)) (calls_of (getSMA W a c i n) tr)
    /\ (exists rest, calls_of (getSMA W a c i n) tr = Fetch p :: rest)
    /\ Forall (fetch_symbol (asset t ++ "/USDT")) (calls_of (placeOrder W t) tr).
Proof.
  intros W asset0 currency0 interval0 period0 t tr swapped p.
  assert (Hs : symbol p = asset0 ++ "/" ++ swapped) by reflexivity.
  split; [exact Hs|].
  split.
  { subst swapped. destruct (currency0 =? "USD") eqn:E.
    - apply String.eqb_eq in E. subst. discriminate.
    - apply String.eqb_neq in E. congruence. }
  split.
  { intros ->. reflexivity. }
  split.
  { intros H. apply String.eqb_neq in H. subst swapped. now rewrite H. }
  destruct (getSMA_run W asset0 currency0 interval0 period0 tr)
    as (v & rest & E & F).
  fold p in E, F.
  destruct (calls_of_run _ _ _ _ E) as [Hc _].
  split.
  { rewrite Hc, <- Hs. constructor; [reflexivity|].
    revert F. apply Forall_impl. intros [] H; simpl in *; auto. now subst. }
  split.
  { exists rest. exact Hc. }
  destruct (placeOrder_run W t tr) as (o & u & cs & rest' & _ & HF & HW & E' & HO & _).
  destruct (calls_of_run _ _ _ _ E') as [Hc' _]. rewrite Hc'.
  apply Forall_app. split.
  - destruct (weighted t) eqn:Hwt.
    + unfold weighted in Hwt. destruct (weight t); [|discriminate].
      apply String.eqb_eq in Hwt.
      apply weight_call_fetch_symbol in HF.
      unfold getSMA_params in HF. cbn [symbol] in HF. rewrite Hwt in HF.
      exact HF.
    + destruct HW as [_ ->]. constructor.
  - eapply order_call_fetch_symbol; eassumption.
Qed.

(* ================================================================== *)
(** ** Which firings are weighted *)

(** C8.  A firing runs the weight calculation exactly when the trade has a
    weight and its currency is USD: then its calls start with the calls of
    [calculateWeight], and otherwise it makes no indicator fetch and no
    ticker read, and the configured [quoteOrderQty] is the spend amount as it
    is: the firing submits the order with it, or, when it is zero, skips. *)
Theorem weighting_only_for_USD :
  forall (W : world) (t : trade) (tr : trace),
    let pair := asset t ++ currency t in
    let static := Js.of_option (quoteOrderQty t) in
    let cs := calls_of (placeOrder W t) tr in
    (weighted t = true <-> weight t <> None /\ currency t = "USD")
    /\ (weighted t = true <-> In (GetBookTicker pair) cs)
    /\ (weighted t = true <-> exists p, In (Fetch p) cs)
    /\ if weighted t
       then exists rest, cs = (calls_of (calculateWeight W t) tr ++ rest)%list
       else (Js.loose_eq_zero static = true
             /\ cs = [Telegram (MsgSkipped pair)])
            \/ (Js.loose_eq_zero static = false
                /\ exists rest,
                     cs = MarketBuy pair (quantity t) static :: rest
                     /\ Forall (order_call pair (quantity t) static) rest).
Proof.
  intros W t tr pair static cs.
  split.
  { unfold weighted. destruct (weight t).
    - rewrite String.eqb_eq. split; [intros ->; split; congruence | tauto].
    - split; [discriminate | intros [H _]; congruence]. }
  destruct (placeOrder_run W t tr)
    as (o & u & cs0 & rest & _ & HF & HW & E & HO & HZ).
  fold pair in HF, HW, HO, HZ.
  destruct (calls_of_run _ _ _ _ E) as [Hc _]. fold cs in Hc.
  assert (Hrest : forall c, In c rest -> is_indicator_call c = false).
  { rewrite Forall_forall in HO. intros c Hc0. specialize (HO c Hc0).
    destruct c; simpl in *; auto; contradiction. }
  destruct (weighted t) eqn:Hwt.
  - destruct HW as (_ & (r0 & Hcs) & _ & Hcw).
    split; [|split].
    + split; [intros _|reflexivity].
      rewrite Hc, Hcs. apply in_or_app. left. apply in_or_app. right. now left.
    + split; [intros _|reflexivity].
      eexists. rewrite Hc, Hcs. apply in_or_app. left. now left.
    + exists rest. rewrite Hcw. exact Hc.
  - destruct HW as [-> ->]. simpl in Hc. fold static in HO, HZ.
    split; [|split].
    + split; [discriminate|]. intros H. rewrite Hc in H.
      now apply Hrest in H.
    + split; [discriminate|]. intros [p H]. rewrite Hc in H.
      now apply Hrest in H.
    + destruct (Js.loose_eq_zero static).
      * left. destruct HZ as [-> _]. auto.
      * right. destruct HZ as [rest' ->]. split; [reflexivity|].
        exists rest'. split; [exact Hc|]. now inversion HO.
Qed.

(* ================================================================== *)
(** ** The outcomes of a firing *)

(** C5.  In a firing of a weighted trade whose adjusted spend rounds to
    exactly zero (the weight calculation returns the digits 0.00, with or
    without a sign), the trading client is not asked for an order: after the
    calls of the weight calculation the firing sends the message that the
    weighting algorithm skipped the purchase, and returns. *)
Theorem zero_spend_skips_order :
  forall (W : world) (t : trade) (tr : trace) (neg : bool),
    weighted t = true ->
    result_of (calculateWeight W t) tr = Ok (Js.Str (Js.FixedDigits neg 0)) ->
    let pair := asset t ++ currency t in
    let cs := calls_of (placeOrder W t) tr in
    result_of (placeOrder W t) tr = Ok tt
    /\ cs = (calls_of (calculateWeight W t) tr
             ++ [Telegram (MsgSkipped pair)])%list
    /\ filter is_marketBuy cs = []
    /\ filter is_notification cs = [Telegram (MsgSkipped pair)].
Proof.
  intros W t tr neg Hwt Hres pair cs.
  destruct (resolveSpend_run W t tr) as (u & cs0 & E & HF & HW).
  rewrite Hwt in HW. destruct HW as (_ & _ & Hr & Hcw).
  rewrite Hres in Hr. injection Hr as <-.
  pose proof (placeOrder_skipped W t tr _ _ E eq_refl) as P.
  fold pair in P. rewrite <- app_assoc in P.
  destruct (calls_of_run _ _ _ _ P) as [Hc Ho]. fold cs in Hc.
  apply weight_call_indicator in HF.
  split; [exact Ho|]. split; [now rewrite Hcw|].
  rewrite Hc, !filter_app.
  rewrite (filter_indicator_nil is_marketBuy), (filter_indicator_nil is_notification);
    auto; intros []; simpl; congruence.
Qed.

(** C6.  After an order that is filled (the answer has an order identifier
    and a fill), the balance of the trade's currency is read from the account
    information fetched after the order, and the low-balance warning is sent
    exactly when totalCost * NUM_TRADE_THRESHOLD, with the threshold 5, is
    greater than that free balance; it is the last call of the firing and the
    only such warning.  With totalCost 50 the warning is sent for a free
    balance of 100 and not for one of 500. *)
Theorem low_balance_warning_iff :
  forall (W : world) (t : trade) (tr tr1 : trace) (u : Js.value)
         (bs : list balance) (b : balance),
    resolveSpend W t tr = (Ok u, tr1) ->
    Js.loose_eq_zero u = false ->
    let pair := asset t ++ currency t in
    let tr2 := (tr1 ++ [MarketBuy pair (quantity t) u])%list in
    let r := marketBuy W tr2 in
    let d := getOrderDetails W (asset t) (currency t) r in
    let tr3 := (tr2 ++ [SaveOrder r; SendGrid (MailExecuted pair r);
                        Telegram (MsgExecuted pair d); GetAccountInfo])%list in
    truthy_orderId r = true ->
    fills r <> [] ->
    balances (getAccountInfo W tr3) = Some bs ->
    find (fun item => b_asset item =? currency t) bs = Some b ->
    let cs := calls_of (placeOrder W t) tr in
    let warning := Telegram (MsgBalanceLow (currency t) (free b)) in
    result_of (placeOrder W t) tr = Ok tt
    /\ lowBalance (totalCost d) (free b)
       = (free b <? totalCost d * 5)%float
    /\ filter is_lowBalance_message cs
       = (if lowBalance (totalCost d) (free b) then [warning] else [])
    /\ (In warning cs <-> lowBalance (totalCost d) (free b) = true)
    /\ snd (placeOrder W t tr)
       = (tr3 ++ if lowBalance (totalCost d) (free b) then [warning] else [])%list
    /\ lowBalance 50 100 = true
    /\ lowBalance 50 500 = false.
Proof.
  intros W t tr tr1 u bs b E Z pair tr2 r d tr3 Hr Hf Hb Hfind cs warning.
  pose proof (placeOrder_filled W t tr tr1 u bs b E Z Hr Hf Hb Hfind) as P.
  fold pair tr2 r d tr3 warning in P.
  destruct (resolveSpend_run W t tr) as (u' & cs0 & E' & HF & _).
  rewrite E in E'. injection E' as <- ->.
  apply weight_call_indicator in HF.
  set (low := lowBalance (totalCost d) (free b)) in *.
  assert (P' : placeOrder W t tr
               = (Ok tt, (tr ++ cs0 ++ [MarketBuy pair (quantity t) u; SaveOrder r;
                    SendGrid (MailExecuted pair r); Telegram (MsgExecuted pair d);
                    GetAccountInfo] ++ if low then [warning] else [])%list)).
  { rewrite P. unfold tr3, tr2. rewrite <- !app_assoc. reflexivity. }
  destruct (calls_of_run _ _ _ _ P') as [Hc Ho]. fold cs in Hc.
  assert (Hfilter : filter is_lowBalance_message cs = if low then [warning] else []).
  { rewrite Hc, !filter_app.
    rewrite (filter_indicator_nil is_lowBalance_message) by
      (auto; intros []; simpl; congruence).
    destruct low; reflexivity. }
  split; [exact Ho|]. split; [reflexivity|]. split; [exact Hfilter|].
  split.
  { split.
    - intros Hin.
      assert (Hin' : In warning (filter is_lowBalance_message cs))
        by (apply filter_In; split; [exact Hin | reflexivity]).
      rewrite Hfilter in Hin'. destruct low; [reflexivity | contradiction].
    - intros Hl. rewrite Hc, Hl. apply in_or_app. right.
      apply in_or_app. right. now left. }
  split; [now rewrite P|]. split; reflexivity.
Qed.

(** C7.  When the answer to the order carries no order identifier, the
    firing sends exactly one failure notification on each channel, one mail
    and one Telegram message, and no other notification; both carry the
    upstream message when the answer has one (a non-empty [msg]) and the
    generic text otherwise; nothing is saved, and the firing returns. *)
Theorem rejected_order_notifies_once :
  forall (W : world) (t : trade) (tr tr1 : trace) (u : Js.value),
    resolveSpend W t tr = (Ok u, tr1) ->
    Js.loose_eq_zero u = false ->
    let pair := asset t ++ currency t in
    let r := marketBuy W (tr1 ++ [MarketBuy pair (quantity t) u])%list in
    truthy_orderId r = false ->
    let cs := calls_of (placeOrder W t) tr in
    let e := errorText r pair in
    result_of (placeOrder W t) tr = Ok tt
    /\ filter is_notification cs
       = [SendGrid (MailFailed pair e); Telegram (MsgFailed pair e)]
    /\ filter is_failure_mail cs = [SendGrid (MailFailed pair e)]
    /\ filter is_failure_message cs = [Telegram (MsgFailed pair e)]
    /\ filter is_saveOrder cs = []
    /\ (forall m, msg r = Some m -> m <> "" -> e = m)
    /\ (msg r = None \/ msg r = Some "" -> e = generic_error pair).
Proof.
  intros W t tr tr1 u E Z pair r Hr cs e.
  pose proof (placeOrder_rejected W t tr tr1 u E Z Hr) as P.
  fold pair r e in P.
  destruct (resolveSpend_run W t tr) as (u' & cs0 & E' & HF & _).
  rewrite E in E'. injection E' as <- ->.
  apply weight_call_indicator in HF.
  rewrite <- !app_assoc in P.
  destruct (calls_of_run _ _ _ _ P) as [Hc Ho]. fold cs in Hc.
  split; [exact Ho|].
  rewrite Hc, !filter_app.
  rewrite (filter_indicator_nil is_notification),
          (filter_indicator_nil is_failure_mail),
          (filter_indicator_nil is_failure_message),
          (filter_indicator_nil is_saveOrder);
    auto; try (intros []; simpl; congruence).
  repeat split.
  - intros m Hm Hne. subst e. unfold errorText. rewrite Hm.
    unfold Js.truthy_str. apply String.eqb_neq in Hne. now rewrite Hne.
  - intros [Hm|Hm]; subst e; unfold errorText; rewrite Hm; reflexivity.
Qed.

(* ================================================================== *)
(** ** A firing without a moving average *)

(** Without a moving average the Mayer multiple is NaN and the clamp sets
    the factor to zero. *)
Lemma mayerFactor_without_sma (q : option float) (w : weightSpec) (p : float) :
  mayerFactor (weigh q w None p) = 0%float.
Proof.
  unfold weigh; cbn [mayerFactor Js.to_number].
  rewrite FloatFacts.ltb_nan_r; [reflexivity|].
  apply FloatFacts.mul_nan_r, FloatFacts.sub_nan_r, FloatFacts.div_nan_l,
    FloatFacts.div_nan_r, FloatFacts.nan_isNaN.
Qed.

Lemma spend_without_sma (q : option float) (w : weightSpec) (p : float) :
  finite (Js.to_number q) = true ->
  finite (athFactor (weigh q w None p)) = true ->
  updatedQuoteOrderQty (weigh q w None p) = Js.FixedDigits false 0.
Proof.
  intros Hq Ha.
  pose proof (mayerFactor_without_sma q w p) as Hm.
  unfold weigh in *. cbn [mayerFactor athFactor updatedQuoteOrderQty] in *.
  rewrite Hm. apply FloatFacts.toFixed2_zero.
  apply FloatFacts.mul_zero_l; [|exact Ha].
  apply FloatFacts.mul_zero_r; [exact Hq|]. exists false. reflexivity.
Qed.

(** C2, as the code has it.  When the indicator fetch has used up its
    attempts, so that [getSMA] returns [undefined], the firing of a weighted
    USD trade still uses the result of the weighting: the Mayer factor is
    clamped to zero and, for a finite [quoteOrderQty] and a finite ATH
    factor, [calculateWeight] returns the string 0.00; the firing does not
    fail, submits no order, and sends the skipped-purchase message after the
    ticker read. *)
Theorem exhausted_indicator_skips_purchase :
  forall (W : world) (t : trade) (w : weightSpec) (tr : trace),
    weight t = Some w ->
    currency t = "USD" ->
    result_of (getSMA W (asset t) (currency t) "1d" 200) tr = Ok None ->
    finite (Js.to_number (quoteOrderQty t)) = true ->
    (forall h, finite (athFactor (weigh (quoteOrderQty t) w None (bidPrice W h)))
               = true) ->
    let pair := asset t ++ currency t in
    let cs := calls_of (placeOrder W t) tr in
    (forall p, mayerFactor (weigh (quoteOrderQty t) w None p) = 0%float)
    /\ result_of (calculateWeight W t) tr = Ok (Js.Str (Js.FixedDigits false 0))
    /\ Js.fixed_string (Js.FixedDigits false 0) = Some "0.00"
    /\ result_of (placeOrder W t) tr = Ok tt
    /\ cs = (calls_of (getSMA W (asset t) (currency t) "1d" 200) tr
             ++ [GetBookTicker pair; Telegram (MsgSkipped pair)])%list
    /\ filter is_marketBuy cs = [].
Proof.
  intros W t w tr Hw Hcur Hsma Hq Hath pair cs.
  split; [intros p; apply mayerFactor_without_sma|].
  destruct (calculateWeight_run W t w tr Hw) as (v & rest & E & F & Ecw).
  destruct (calls_of_run _ _ _ _ E) as [Hcs Hr].
  rewrite Hsma in Hr. injection Hr as <-.
  rewrite spend_without_sma in Ecw by auto.
  fold pair in Ecw.
  destruct (calls_of_run _ _ _ _ Ecw) as [_ Hrw].
  split; [exact Hrw|]. split; [reflexivity|].
  assert (Er : resolveSpend W t tr = calculateWeight W t tr).
  { unfold resolveSpend, weighted. rewrite Hw, Hcur. reflexivity. }
  rewrite Ecw in Er.
  pose proof (placeOrder_skipped W t tr _ _ Er eq_refl) as P.
  fold pair in P. rewrite <- !app_assoc in P.
  destruct (calls_of_run _ _ _ _ P) as [Hc Ho]. fold cs in Hc.
  split; [exact Ho|].
  split; [rewrite Hc, Hcs; reflexivity|].
  rewrite Hc. rewrite !filter_app.
  rewrite (filter_indicator_nil is_marketBuy (Fetch _ :: rest)).
  - reflexivity.
  - intros []; simpl; congruence.
  - apply (weight_call_indicator (getSMA_params (asset t) (currency t) "1d" 200) pair).
    constructor; [reflexivity|]. now apply sma_call_weight_call.
Qed.

(** C2, as stated, fails: with an indicator source that fails at every
    attempt, [getSMA] returns [undefined] after two fetches and the firing of
    the weighted trade (quoteOrderQty 100) ends with the skipped-purchase
    message; no order is submitted, with the static amount or any other. *)
Lemma exhausted_indicator_no_static_order :
  result_of (getSMA Example.world_exhausted "BTC" "USD" "1d" 200) [] = Ok None
  /\ placeOrder Example.world_exhausted Example.trade_weighted []
     = (Ok tt,
        [Fetch (getSMA_params "BTC" "USD" "1d" 200);
         Fetch (getSMA_params "BTC" "USD" "1d" 200);
         GetBookTicker "BTCUSD";
         Telegram (MsgSkipped "BTCUSD")])
  /\ filter is_marketBuy
       (calls_of (placeOrder Example.world_exhausted Example.trade_weighted) [])
     = [].
Proof.
  repeat split; vm_compute; reflexivity.
Qed.

(** The theorem at an indicator source that throws at every attempt. *)
Lemma exhausted_indicator_witness :
  result_of (getSMA Example.world_exhausted "BTC" "USD" "1d" 200) [] = Ok None
  /\ finite (Js.to_number (quoteOrderQty Example.trade_weighted)) = true
  /\ result_of (calculateWeight Example.world_exhausted Example.trade_weighted) []
     = Ok (Js.Str (Js.FixedDigits false 0))
  /\ filter is_marketBuy
       (calls_of (placeOrder Example.world_exhausted Example.trade_weighted) [])
     = [].
Proof.
  assert (Hsma : result_of (getSMA Example.world_exhausted
                              (asset Example.trade_weighted)
                              (currency Example.trade_weighted) "1d" 200) []
                 = Ok None)
    by (apply (getSMA_exhausted Example.world_exhausted); intros h; reflexivity).
  destruct (exhausted_indicator_skips_purchase
              Example.world_exhausted Example.trade_weighted
              Example.weight_example [] eq_refl eq_refl Hsma eq_refl
              (fun _ => eq_refl))
    as (_ & Hcw & _ & _ & _ & Hbuy).
  split; [exact Hsma|]. split; [reflexivity|].
  split; [exact Hcw | exact Hbuy].
Defined.

(** The theorem at a bid of 60000, three times the moving average: the
    Mayer factor is clamped to zero and the purchase is skipped. *)
Lemma zero_spend_witness :
  weighted Example.trade_weighted = true
  /\ result_of (calculateWeight Example.world_high Example.trade_weighted) []
     = Ok (Js.Str (Js.FixedDigits false 0))
  /\ calls_of (placeOrder Example.world_high Example.trade_weighted) []
     = [Fetch (getSMA_params "BTC" "USD" "1d" 200);
        GetBookTicker "BTCUSD";
        Telegram (MsgSkipped "BTCUSD")].
Proof.
  assert (Hw : weighted Example.trade_weighted = true) by reflexivity.
  assert (Hz : result_of (calculateWeight Example.world_high Example.trade_weighted) []
               = Ok (Js.Str (Js.FixedDigits false 0)))
    by (vm_compute; reflexivity).
  destruct (zero_spend_skips_order Example.world_high Example.trade_weighted
              [] false Hw Hz) as (_ & Hcs & _ & _).
  split; [exact Hw|]. split; [exact Hz|].
  rewrite Hcs. vm_compute. reflexivity.
Defined.

(** The theorem at a total cost of 50: the warning is sent with 100 USD
    left, and not with 500. *)
Lemma low_balance_witness :
  resolveSpend Example.world_filled Example.trade_static []
  = (Ok (Js.Num 100), [])
  /\ filter is_lowBalance_message
       (calls_of (placeOrder Example.world_filled Example.trade_static) [])
     = [Telegram (MsgBalanceLow "USD" 100)]
  /\ filter is_lowBalance_message
       (calls_of (placeOrder Example.world_funded Example.trade_static) [])
     = [].
Proof.
  split; [reflexivity|].
  split.
  - destruct (low_balance_warning_iff Example.world_filled Example.trade_static
                [] [] (Js.Num 100)
                [ {| b_asset := "BTC"; free := 1 |};
                  {| b_asset := "USD"; free := 100 |} ]
                {| b_asset := "USD"; free := 100 |}
                eq_refl eq_refl eq_refl
                ltac:(discriminate) eq_refl eq_refl)
      as (_ & _ & H & _).
    exact H.
  - destruct (low_balance_warning_iff Example.world_funded Example.trade_static
                [] [] (Js.Num 100)
                [ {| b_asset := "BTC"; free := 1 |};
                  {| b_asset := "USD"; free := 500 |} ]
                {| b_asset := "USD"; free := 500 |}
                eq_refl eq_refl eq_refl
                ltac:(discriminate) eq_refl eq_refl)
      as (_ & _ & H & _).
    exact H.
Defined.

(** The theorem at an order rejected for insufficient balance. *)
Lemma rejected_order_witness :
  resolveSpend Example.world_rejecting Example.trade_static []
  = (Ok (Js.Num 100), [])
  /\ msg Example.order_rejected = Some "Account has insufficient balance"
  /\ filter is_notification
       (calls_of (placeOrder Example.world_rejecting Example.trade_static) [])
     = [SendGrid (MailFailed "BTCUSD" "Account has insufficient balance");
        Telegram (MsgFailed "BTCUSD" "Account has insufficient balance")]
  /\ filter is_saveOrder
       (calls_of (placeOrder Example.world_rejecting Example.trade_static) [])
     = [].
Proof.
  split; [reflexivity|]. split; [reflexivity|].
  destruct (rejected_order_notifies_once Example.world_rejecting
              Example.trade_static [] [] (Js.Num 100) eq_refl eq_refl eq_refl)
    as (_ & Hn & _ & _ & Hs & _).
  split; [exact Hn | exact Hs].
Defined.

(* ================================================================== *)
(** ** Start-up *)

Section Startup.

Variable W : world.

(** The loop over the trades only adds calls to the trace. *)
Lemma runTrades_run (trades : list trade) :
  forall tr, exists o cs, runTrades W trades tr = (o, (tr ++ cs)%list).
Proof.
  induction trades as [|t rest IH]; intros tr; cbn [runTrades].
  - exists (Ok tt), []. now rewrite app_nil_r.
  - destruct (invalid t); [apply IH|].
    destruct (conflicting t).
    + exists (Threw conflict_error), []. now rewrite app_nil_r.
    + unfold bind at 1. unfold lift. destruct (describe W t) as [text|e0];
        [|exists (Threw e0), []; now rewrite app_nil_r].
      unfold bind. destruct (has_schedule t) as [s|].
      * unfold emit, perform. cbv beta zeta.
        destruct (IH (tr ++ [ScheduleJob s t])%list) as (o & cs & E).
        exists o, (ScheduleJob s t :: cs). rewrite E, <- app_assoc. reflexivity.
      * destruct (placeOrder_run W t tr)
          as (o & u & cs & more & _ & _ & _ & E & _).
        rewrite E. destruct o as [[]|e].
        -- destruct (IH (tr ++ cs ++ more)%list) as (o' & cs' & E').
           exists o', (cs ++ more ++ cs')%list. rewrite E', <- !app_assoc.
           reflexivity.
        -- exists (Threw e), (cs ++ more)%list. reflexivity.
Qed.

(** The loop stops at a trade that has an asset, a currency and both sizes:
    it has done the trades before it, and it does nothing of that trade or of
    the trades after it. *)
Lemma runTrades_conflict (pre post : list trade) (t : trade) :
  invalid t = false ->
  conflicting t = true ->
  forall tr,
    runTrades W (pre ++ t :: post) tr
    = (runTrades W pre ;;; throw conflict_error) tr.
Proof.
  intros Hi Hc. induction pre as [|x pre IH]; intros tr.
  - cbn [runTrades app]. rewrite Hi, Hc. reflexivity.
  - cbn [runTrades app].
    destruct (invalid x); [apply IH|].
    destruct (conflicting x); [reflexivity|].
    unfold bind, lift in IH |- *.
    destruct (describe W x) as [text|e0]; [|reflexivity].
    destruct (match has_schedule x with
              | Some s => emit (ScheduleJob s x)
              | None => placeOrder W x
              end tr) as [[[]|e] tr']; [apply IH | reflexivity].
Qed.

End Startup.

(** C3, as stated, fails: the conflict is found inside the loop that
    executes and schedules.  A trade placed before the conflicting one is
    submitted, or registered on its timer, before the start-up throws. *)
Lemma earlier_trades_run_before_conflict :
  result_of (runBot Example.world_filled
               (Example.configured [Example.trade_static; Example.trade_conflict]))
            []
  = Threw conflict_error
  /\ filter is_marketBuy
       (calls_of (runBot Example.world_filled
                    (Example.configured
                       [Example.trade_static; Example.trade_conflict])) [])
     = [MarketBuy "BTCUSD" None (Js.Num 100)]
  /\ runBot Example.world_filled
       (Example.configured [Example.trade_scheduled; Example.trade_conflict]) []
     = (Threw conflict_error,
        [GetAccountInfo; ScheduleJob "0 17 * * *" Example.trade_scheduled]).
Proof.
  repeat split; vm_compute; reflexivity.
Qed.

(** C3, as the code has it.  When the start-up checks pass and the list of
    trades has a trade with an asset, a currency and both [quantity] and
    [quoteOrderQty] set, [runBot] throws: it makes the connectivity call and
    the calls of the trades before that trade, and nothing else, so that the
    trade itself and the trades after it are neither submitted nor scheduled
    and the start-up message is not sent; the error is the conflict error
    unless a trade before it has thrown already. *)
Theorem conflict_aborts_at_its_position :
  forall (W : world) (C : config) (pre post : list trade) (t : trade)
         (tr : trace),
    TRADES C = (pre ++ t :: post)%list ->
    checkForParameters C = true ->
    result_of (checkForBinanceConnectivity W) tr = Ok true ->
    invalid t = false ->
    conflicting t = true ->
    let tr0 := (tr ++ [GetAccountInfo])%list in
    (exists e, result_of (runBot W C) tr = Threw e)
    /\ calls_of (runBot W C) tr
       = GetAccountInfo :: calls_of (runTrades W pre) tr0
    /\ (result_of (runTrades W pre) tr0 = Ok tt ->
        result_of (runBot W C) tr = Threw conflict_error)
    /\ (forall e, result_of (runTrades W pre) tr0 = Threw e ->
        result_of (runBot W C) tr = Threw e).
Proof.
  intros W C pre post t tr HT Hp Hconn Hi Hc tr0.
  assert (Econn : checkForBinanceConnectivity W tr = (Ok true, tr0)).
  { unfold result_of in Hconn. revert Hconn.
    unfold checkForBinanceConnectivity, bind, perform. cbv beta zeta. fold tr0.
    destruct (a_msg (getAccountInfo W tr0)) as [m|].
    - destruct (Js.truthy_str m); unfold throw, ret; simpl; [discriminate|].
      now intros [= ->].
    - unfold ret; simpl. now intros [= ->]. }
  assert (E : runBot W C tr = (runTrades W pre ;;; throw conflict_error) tr0).
  { unfold runBot. rewrite Hp. cbn [negb]. unfold bind at 1. rewrite Econn.
    cbn [negb]. unfold bind at 1. rewrite HT, runTrades_conflict by assumption.
    unfold bind. destruct (runTrades W pre tr0) as [[[]|e] tr']; reflexivity. }
  destruct (runTrades_run W pre tr0) as (o & cs & Epre).
  destruct (calls_of_run _ _ _ _ Epre) as [Hcs Ho].
  assert (E' : exists e, runBot W C tr = (Threw e, (tr ++ GetAccountInfo :: cs)%list)
                         /\ (o = Ok tt -> e = conflict_error)
                         /\ (forall e', o = Threw e' -> e = e')).
  { rewrite E. unfold bind. rewrite Epre. unfold tr0. rewrite <- app_assoc.
    destruct o as [[]|e].
    - exists conflict_error. repeat split; congruence.
    - exists e. repeat split; congruence. }
  destruct E' as (e & E' & H1 & H2).
  destruct (calls_of_run _ _ _ _ E') as [Hc' Ho'].
  split; [exists e; exact Ho'|].
  split; [rewrite Hc', Hcs; reflexivity|].
  split.
  - intros H. rewrite Ho'. f_equal. apply H1. congruence.
  - intros e' H. rewrite Ho'. f_equal. apply H2. congruence.
Qed.

(** The theorem at a valid trade followed by a conflicting one. *)
Lemma conflict_aborts_witness :
  checkForParameters
    (Example.configured [Example.trade_static; Example.trade_conflict]) = true
  /\ invalid Example.trade_conflict = false
  /\ conflicting Example.trade_conflict = true
  /\ calls_of (runBot Example.world_rejecting
                 (Example.configured
                    [Example.trade_static; Example.trade_conflict])) []
     = GetAccountInfo
       :: calls_of (runTrades Example.world_rejecting [Example.trade_static])
            [GetAccountInfo].
Proof.
  split; [reflexivity|]. split; [reflexivity|]. split; [reflexivity|].
  destruct (conflict_aborts_at_its_position Example.world_rejecting
              (Example.configured [Example.trade_static; Example.trade_conflict])
              [Example.trade_static] [] Example.trade_conflict []
              eq_refl eq_refl eq_refl eq_refl eq_refl)
    as (_ & H & _).
  exact H.
Defined.

(* ================================================================== *)
(** ** Equal average and maximum multiples *)

(** C4, as stated, fails: no check of the start-up reads the weight.  With
    [mayerMultipleAvg] and [mayerMultipleMax] both 2.4 the start-up
    completes, the trade fires, [calculateWeight] divides by zero and gets
    Infinity for [mayerWeightConstant], and the order is submitted with the
    amount Infinity. *)
Lemma equal_multiples_reach_division :
  mayerMultipleAvg Example.weight_equal = mayerMultipleMax Example.weight_equal
  /\ result_of (runBot Example.world_filled
                  (Example.configured [Example.trade_equal])) []
     = Ok tt
  /\ mayerWeightConstant
       (weigh (Some 100%float) Example.weight_equal (Some 20000%float) 25000)
     = infinity
  /\ calculateWeight Example.world_filled Example.trade_equal [GetAccountInfo]
     = (Ok (Js.Str (Js.FixedToString infinity)),
        [GetAccountInfo; Fetch (getSMA_params "BTC" "USD" "1d" 200);
         GetBookTicker "BTCUSD"])
  /\ filter is_marketBuy
       (calls_of (runBot Example.world_filled
                    (Example.configured [Example.trade_equal])) [])
     = [MarketBuy "BTCUSD" None (Js.Str (Js.FixedToString infinity))]
  /\ Js.fixed_string (Js.FixedToString infinity) = Some "Infinity".
Proof.
  repeat split; vm_compute; reflexivity.
Qed.

(** C4, as the code has it.  The weight of a trade is not validated: the
    tests of the start-up loop on a trade do not depend on its weight, so a
    trade they accept is fired or scheduled whatever its weight is.  When a
    USD trade whose [mayerMultipleAvg] equals its [mayerMultipleMax] fires,
    [calculateWeight] does not fail: it fetches the indicator and the ticker
    and reaches the division, and [mayerWeightConstant] is 1 / (1 - 1), that
    is Infinity, when the common value is finite and not zero, and NaN when
    it is a zero, an infinity or NaN. *)
Theorem equal_multiples_not_validated :
  forall (W : world) (t : trade) (w : weightSpec) (tr : trace),
    weight t = Some w ->
    currency t = "USD" ->
    mayerMultipleAvg w = mayerMultipleMax w ->
    (forall w', invalid (with_weight t w') = invalid t
                /\ conflicting (with_weight t w') = conflicting t
                /\ has_schedule (with_weight t w') = has_schedule t)
    /\ (invalid t = false -> conflicting t = false -> has_schedule t = None ->
        forall rest,
          runTrades W (t :: rest) tr
          = (placeOrder W t ;;; runTrades W rest) tr)
    /\ exists sma price cs,
         calculateWeight W t tr
         = (Ok (Js.Str (updatedQuoteOrderQty
                          (weigh (quoteOrderQty t) w sma price))),
            (tr ++ cs)%list)
         /\ (if nonzero_finite (mayerMultipleMax w)
             then mayerWeightConstant (weigh (quoteOrderQty t) w sma price)
                  = infinity
             else Js.isNaN
                    (mayerWeightConstant (weigh (quoteOrderQty t) w sma price)))
         /\ exists rest, calls_of (placeOrder W t) tr = (cs ++ rest)%list.
Proof.
  intros W t w tr Hw Hcur Heq.
  split; [intros w'; repeat split|].
  split.
  { intros Hi Hc Hs rest. cbn [runTrades]. rewrite Hi, Hc.
    unfold describe. rewrite Hs. reflexivity. }
  destruct (calculateWeight_run W t w tr Hw) as (v & more & _ & _ & E).
  eexists v, _, _. split; [exact E|].
  split.
  { unfold weigh; cbn [mayerWeightConstant]. rewrite Heq.
    destruct (nonzero_finite (mayerMultipleMax w)) eqn:Hnz.
    - rewrite FloatFacts.div_self by exact Hnz. reflexivity.
    - apply FloatFacts.div_nan_r, FloatFacts.sub_nan_r.
      now apply FloatFacts.div_self_nan. }
  destruct (placeOrder_run W t tr) as (o & u & cs & rest & _ & _ & HW & P & _).
  assert (Hwt : weighted t = true)
    by (unfold weighted; rewrite Hw, Hcur; reflexivity).
  rewrite Hwt in HW. destruct HW as (_ & _ & _ & Hcs).
  destruct (calls_of_run _ _ _ _ E) as [Hcw _]. rewrite Hcw in Hcs. subst cs.
  destruct (calls_of_run _ _ _ _ P) as [Hc _].
  exists rest. exact Hc.
Qed.

(** The theorem at the multiples 2.4 and 2.4. *)
Lemma equal_multiples_witness :
  weight Example.trade_equal = Some Example.weight_equal
  /\ currency Example.trade_equal = "USD"
  /\ mayerMultipleAvg Example.weight_equal
     = mayerMultipleMax Example.weight_equal
  /\ runTrades Example.world_filled [Example.trade_equal] [GetAccountInfo]
     = (placeOrder Example.world_filled Example.trade_equal ;;;
        runTrades Example.world_filled []) [GetAccountInfo].
Proof.
  split; [reflexivity|]. split; [reflexivity|]. split; [reflexivity|].
  destruct (equal_multiples_not_validated Example.world_filled
              Example.trade_equal Example.weight_equal [GetAccountInfo]
              eq_refl eq_refl eq_refl) as (_ & H & _).
  apply H; reflexivity.
Defined.

(* ================================================================== *)
(** ** The attempts of the indicator adapter *)

Section Attempts.

Variable W : world.

(** X1.  When the first answer of the indicator source has no error,
    [getSMA] returns its value after that single fetch, without sleeping. *)
Theorem getSMA_first_answer :
  forall (a c i : string) (n : Z) (tr : trace) (b : smaBody),
    let p := getSMA_params a c i n in
    fetch W (tr ++ [Fetch p])%list = FetchBody b ->
    error b = None ->
    getSMA W a c i n tr = (Ok (value b), (tr ++ [Fetch p])%list).
Proof.
  intros a c i n tr b p H1 He.
  unfold getSMA. fold p. cbn [getSMA_loop]. cbn [Z.ltb Z.compare Pos.compare Pos.compare_cont].
  unfold bind, emit, perform. cbv beta zeta. rewrite H1, He. reflexivity.
Qed.

(** X2.  When the first answer carries an error and the second does not,
    [getSMA] sleeps 15000 ms between the two fetches and returns the value of
    the second answer; the error of the first attempt does not reach the
    caller. *)
Theorem getSMA_retry_after_error :
  forall (a c i : string) (n : Z) (tr : trace) (b1 b2 : smaBody) (e : string),
    let p := getSMA_params a c i n in
    fetch W (tr ++ [Fetch p])%list = FetchBody b1 ->
    error b1 = Some e ->
    fetch W (tr ++ [Fetch p; Sleep 15000; Fetch p])%list = FetchBody b2 ->
    error b2 = None ->
    getSMA W a c i n tr
    = (Ok (value b2), (tr ++ [Fetch p; Sleep 15000; Fetch p])%list).
Proof.
  intros a c i n tr b1 b2 e p H1 He1 H2 He2.
  replace (tr ++ [Fetch p; Sleep 15000; Fetch p])%list
    with (((tr ++ [Fetch p]) ++ [Sleep 15000]) ++ [Fetch p])%list in *
    by (rewrite <- !app_assoc; reflexivity).
  unfold getSMA. fold p. cbn -[app].
  unfold bind, emit, perform. cbv beta zeta.
  rewrite H1, He1. cbv beta iota zeta. rewrite H2, He2. reflexivity.
Qed.

(** X3.  When the first fetch throws, [getSMA] fetches again at once,
    without a back-off sleep, and returns the value of the second answer. *)
Theorem getSMA_retry_after_exception :
  forall (a c i : string) (n : Z) (tr : trace) (b2 : smaBody),
    let p := getSMA_params a c i n in
    fetch W (tr ++ [Fetch p])%list = FetchThrows ->
    fetch W (tr ++ [Fetch p; Fetch p])%list = FetchBody b2 ->
    error b2 = None ->
    getSMA W a c i n tr = (Ok (value b2), (tr ++ [Fetch p; Fetch p])%list).
Proof.
  intros a c i n tr b2 p H1 H2 He2.
  replace (tr ++ [Fetch p; Fetch p])%list
    with ((tr ++ [Fetch p]) ++ [Fetch p])%list in *
    by (rewrite <- !app_assoc; reflexivity).
  unfold getSMA. fold p. cbn -[app].
  unfold bind, emit, perform. cbv beta zeta.
  rewrite H1. cbv beta iota zeta. rewrite H2, He2. reflexivity.
Qed.

(** X4.  When both answers carry an error, [getSMA] gives up with
    [undefined], and it has slept after each of them: 15000 ms after the
    first and 30000 ms after the second, although no attempt follows. *)
Theorem getSMA_gives_up_after_two_errors :
  forall (a c i : string) (n : Z) (tr : trace) (b1 b2 : smaBody) (e1 e2 : string),
    let p := getSMA_params a c i n in
    fetch W (tr ++ [Fetch p])%list = FetchBody b1 ->
    error b1 = Some e1 ->
    fetch W (tr ++ [Fetch p; Sleep 15000; Fetch p])%list = FetchBody b2 ->
    error b2 = Some e2 ->
    getSMA W a c i n tr
    = (Ok None,
       (tr ++ [Fetch p; Sleep 15000; Fetch p; Sleep 30000])%list).
Proof.
  intros a c i n tr b1 b2 e1 e2 p H1 He1 H2 He2.
  replace (tr ++ [Fetch p; Sleep 15000; Fetch p])%list
    with (((tr ++ [Fetch p]) ++ [Sleep 15000]) ++ [Fetch p])%list in *
    by (rewrite <- !app_assoc; reflexivity).
  replace (tr ++ [Fetch p; Sleep 15000; Fetch p; Sleep 30000])%list
    with ((((tr ++ [Fetch p]) ++ [Sleep 15000]) ++ [Fetch p])
            ++ [Sleep 30000])%list
    by (rewrite <- !app_assoc; reflexivity).
  unfold getSMA. fold p. cbn -[app].
  unfold bind, emit, perform. cbv beta zeta.
  rewrite H1, He1. cbv beta iota zeta. rewrite H2, He2. reflexivity.
Qed.

(** X5.  Whatever the indicator source answers, [getSMA] does not throw,
    makes one or two fetches, all of the same query, and spends at most
    45000 ms in back-off sleeps. *)
Theorem getSMA_is_bounded :
  forall (a c i : string) (n : Z) (tr : trace),
    let p := getSMA_params a c i n in
    let cs := calls_of (getSMA W a c i n) tr in
    (exists v, result_of (getSMA W a c i n) tr = Ok v)
    /\ (1 <= List.length (filter is_fetch cs) <= 2)%nat
    /\ (List.length (filter is_sleep cs) <= List.length (filter is_fetch cs))%nat
    /\ (0 <= sleep_total cs <= 45000)%Z
    /\ Forall (sma_call p) cs.
Proof.
  intros a c i n tr p cs. subst cs.
  unfold calls_of, result_of, getSMA. fold p. cbn -[app].
  unfold bind, emit, perform. cbv beta zeta.
  destruct (fetch W (tr ++ [Fetch p])%list) as [b1|].
  - destruct (error b1).
    + cbv beta iota zeta.
      destruct (fetch W (((tr ++ [Fetch p]) ++ [Sleep 15000]) ++ [Fetch p])%list)
        as [b2|].
      * destruct (error b2); cbv beta iota zeta; unfold ret; cbn [fst snd];
          rewrite <- !app_assoc, skipn_length_app; cbn;
          (split; [eauto|]); repeat split; try lia;
          repeat constructor.
      * unfold ret; cbn [fst snd].
        rewrite <- !app_assoc, skipn_length_app; cbn.
        (split; [eauto|]); repeat split; try lia; repeat constructor.
    + unfold ret; cbn [fst snd]. rewrite skipn_length_app; cbn.
      (split; [eauto|]); repeat split; try lia; repeat constructor.
  - cbv beta iota zeta.
    destruct (fetch W ((tr ++ [Fetch p]) ++ [Fetch p])%list) as [b2|].
    + destruct (error b2); cbv beta iota zeta; unfold ret; cbn [fst snd];
        rewrite <- !app_assoc, skipn_length_app; cbn;
        (split; [eauto|]); repeat split; try lia;
        repeat constructor.
    + unfold ret; cbn [fst snd].
      rewrite <- !app_assoc, skipn_length_app; cbn.
      (split; [eauto|]); repeat split; try lia; repeat constructor.
Qed.

End Attempts.

(* ================================================================== *)
(** ** The paths of the start-up *)

Section Paths.

Variable W : world.

(** The loop over a list of trades is the loop over its first part followed
    by the loop over the rest. *)
Lemma runTrades_app_eq (pre post : list trade) :
  forall tr,
    runTrades W (pre ++ post) tr = (runTrades W pre ;;; runTrades W post) tr.
Proof.
  induction pre as [|x pre IH]; intros tr.
  - reflexivity.
  - cbn [runTrades app].
    destruct (invalid x); [apply IH|].
    destruct (conflicting x); [reflexivity|].
    unfold bind, lift in IH |- *.
    destruct (describe W x) as [text|e0]; [|reflexivity].
    destruct (match has_schedule x with
              | Some s => emit (ScheduleJob s x)
              | None => placeOrder W x
              end tr) as [[[]|e] tr']; [apply IH | reflexivity].
Qed.

Lemma connectivity_trace (tr : trace) (ok : bool) :
  result_of (checkForBinanceConnectivity W) tr = Ok ok ->
  checkForBinanceConnectivity W tr = (Ok ok, (tr ++ [GetAccountInfo])%list).
Proof.
  unfold result_of, checkForBinanceConnectivity, bind, perform. cbv beta zeta.
  destruct (a_msg (getAccountInfo W (tr ++ [GetAccountInfo])%list)) as [m|].
  - destruct (Js.truthy_str m); unfold throw, ret; simpl; [discriminate|].
    now intros [= ->].
  - unfold ret; simpl. now intros [= ->].
Qed.

(** X6.  [checkForParameters] refuses exactly when the key or the secret is
    missing or empty or no trade is configured; [runBot] then returns without
    a single call: no connectivity check, no order, no timer, no message. *)
Theorem runBot_without_parameters :
  forall (C : config) (tr : trace),
    (checkForParameters C = false
     <-> truthy_key (BINANCE_KEY C) = false
         \/ truthy_key (BINANCE_SECRET C) = false
         \/ TRADES C = [])
    /\ (checkForParameters C = false -> runBot W C tr = (Ok tt, tr)).
Proof.
  intros C tr. split.
  - unfold checkForParameters.
    destruct (truthy_key (BINANCE_KEY C)), (truthy_key (BINANCE_SECRET C));
      cbn [negb orb]; try tauto.
    destruct (TRADES C) as [|t ts]; cbn.
    + tauto.
    + split; [discriminate|]. intros [H|[H|H]]; discriminate.
  - intros H. unfold runBot. rewrite H. reflexivity.
Qed.

(** X7.  When the exchange answers the connectivity check with an error
    body, [runBot] throws an [Error] with the message of that body after this
    one call; no trade is executed or scheduled. *)
Theorem runBot_connectivity_error :
  forall (C : config) (tr : trace) (m : string),
    checkForParameters C = true ->
    a_msg (getAccountInfo W (tr ++ [GetAccountInfo])%list) = Some m ->
    m <> "" ->
    runBot W C tr = (Threw (Error m), (tr ++ [GetAccountInfo])%list).
Proof.
  intros C tr m Hp Hm Hne.
  unfold runBot. rewrite Hp. cbn [negb].
  unfold bind at 1. unfold checkForBinanceConnectivity, bind, perform.
  cbv beta zeta. rewrite Hm.
  apply String.eqb_neq in Hne. unfold Js.truthy_str. rewrite Hne. reflexivity.
Qed.

(** X8.  When the account answers without an error and may not trade,
    [runBot] returns after the connectivity check: it throws nothing, and no
    trade is executed or scheduled and no start-up message is sent. *)
Theorem runBot_trading_disabled :
  forall (C : config) (tr : trace),
    checkForParameters C = true ->
    result_of (checkForBinanceConnectivity W) tr = Ok false ->
    runBot W C tr = (Ok tt, (tr ++ [GetAccountInfo])%list).
Proof.
  intros C tr Hp Hc.
  unfold runBot. rewrite Hp. cbn [negb].
  unfold bind at 1. rewrite (connectivity_trace tr false Hc). reflexivity.
Qed.

(** X9.  Trades that the loop finds invalid (no size, no asset or no
    currency) leave no trace: the loop does on a list what it does on the
    list without them, also for an invalid trade that has both sizes set. *)
Theorem runTrades_skips_invalid :
  forall (trades : list trade) (tr : trace),
    runTrades W trades tr
    = runTrades W (filter (fun t => negb (invalid t)) trades) tr.
Proof.
  induction trades as [|t rest IH]; intros tr.
  - reflexivity.
  - cbn [runTrades filter]. destruct (invalid t) eqn:Hi; cbn [negb].
    + apply IH.
    + cbn [runTrades]. rewrite Hi.
      destruct (conflicting t); [reflexivity|].
      unfold bind, lift.
      destruct (describe W t) as [text|e0]; [|reflexivity].
      destruct (match has_schedule t with
                | Some s => emit (ScheduleJob s t)
                | None => placeOrder W t
                end tr) as [[[]|e] tr']; [apply IH | reflexivity].
Qed.

(** X10.  A start-up loop over trades that are all valid and scheduled,
    with schedules that [cronstrue] describes, only registers timers: one
    [scheduleJob] for each trade, in the order of the list, and it submits no
    order and does not throw.  A valid trade whose schedule [cronstrue]
    rejects makes the loop throw what [cronstrue] throws, before anything is
    registered or submitted for it. *)
Theorem runTrades_scheduled_only :
  forall (trades : list trade) (tr : trace),
    Forall (fun t => invalid t = false /\ conflicting t = false
                     /\ has_schedule t <> None
                     /\ exists text, describe W t = Ok text) trades ->
    runTrades W trades tr
    = (Ok tt, (tr ++ flat_map schedule_call trades)%list)
    /\ List.length (flat_map schedule_call trades) = List.length trades
    /\ forall t e rest,
         invalid t = false -> conflicting t = false ->
         describe W t = Threw e ->
         runTrades W (t :: rest) tr = (Threw e, tr).
Proof.
  intros trades tr H.
  assert (A : forall tr,
            runTrades W trades tr
            = (Ok tt, (tr ++ flat_map schedule_call trades)%list)
            /\ List.length (flat_map schedule_call trades) = List.length trades).
  { clear tr. induction H as [|t rest (Hi & Hc & Hs & text & Hd) _ IH]; intros tr.
    - cbn. rewrite app_nil_r. auto.
    - cbn [runTrades flat_map]. rewrite Hi, Hc.
      unfold bind at 1. unfold lift. rewrite Hd.
      unfold schedule_call at 1 3.
      destruct (has_schedule t) as [s|]; [|congruence].
      unfold bind, emit, perform. cbv beta zeta.
      destruct (IH (tr ++ [ScheduleJob s t])%list) as [E L].
      rewrite E, <- app_assoc. split; [reflexivity|].
      cbn. now rewrite L. }
  destruct (A tr) as [E L].
  split; [exact E|]. split; [exact L|].
  intros t e rest Hi Hc Hd. cbn [runTrades]. rewrite Hi, Hc.
  unfold bind at 1. unfold lift. rewrite Hd. reflexivity.
Qed.



(** X12.  The loop over the trades composes: it does the first part of a
    list, and then the rest from the trace it has reached; when a trade of
    the first part throws, the loop stops there and nothing of the rest is
    executed or scheduled. *)
Theorem runTrades_composes :
  forall (pre post : list trade) (tr : trace),
    runTrades W (pre ++ post) tr
    = (runTrades W pre ;;; runTrades W post) tr
    /\ (forall e, result_of (runTrades W pre) tr = Threw e ->
                  runTrades W (pre ++ post) tr = runTrades W pre tr)
    /\ (result_of (runTrades W pre) tr = Ok tt ->
        runTrades W (pre ++ post) tr
        = runTrades W post (snd (runTrades W pre tr))).
Proof.
  intros pre post tr.
  pose proof (runTrades_app_eq pre post tr) as E.
  split; [exact E|].
  unfold result_of. rewrite E. unfold bind.
  destruct (runTrades W pre tr) as [[[]|e] tr']; cbn [fst snd].
  - split; [discriminate | reflexivity].
  - split; [reflexivity | discriminate].
Qed.

End Paths.

(* ================================================================== *)
(** ** Firings that throw, and what every firing keeps *)

Section Firings.

Variable W : world.

(** The firing whose order has an identifier and no fill. *)
Lemma placeOrder_unfilled (t : trade) (tr tr1 : trace) (u : Js.value) :
  resolveSpend W t tr = (Ok u, tr1) ->
  Js.loose_eq_zero u = false ->
  let pair := asset t ++ currency t in
  let tr2 := (tr1 ++ [MarketBuy pair (quantity t) u])%list in
  let r := marketBuy W tr2 in
  truthy_orderId r = true ->
  fills r = [] ->
  placeOrder W t tr
  = (Threw (TypeError "Cannot read properties of undefined (reading 'price')"),
     tr2).
Proof.
  intros E Z pair tr2 r Hr Hf. unfold placeOrder, bind. rewrite E, Z.
  unfold emit, perform. cbv beta zeta. fold pair tr2 r. rewrite Hr, Hf.
  reflexivity.
Qed.

(** The firing whose order is filled and whose currency has no balance
    entry. *)
Lemma placeOrder_no_balance (t : trade) (tr tr1 : trace) (u : Js.value) :
  resolveSpend W t tr = (Ok u, tr1) ->
  Js.loose_eq_zero u = false ->
  let pair := asset t ++ currency t in
  let tr2 := (tr1 ++ [MarketBuy pair (quantity t) u])%list in
  let r := marketBuy W tr2 in
  let d := getOrderDetails W (asset t) (currency t) r in
  let tr3 := (tr2 ++ [SaveOrder r; SendGrid (MailExecuted pair r);
                      Telegram (MsgExecuted pair d); GetAccountInfo])%list in
  truthy_orderId r = true ->
  fills r <> [] ->
  match balances (getAccountInfo W tr3) with
  | Some bs => find (fun item => b_asset item =? currency t) bs = None
  | None => True
  end ->
  exists m, placeOrder W t tr = (Threw (TypeError m), tr3).
Proof.
  intros E Z pair tr2 r d tr3 Hr Hf Hb.
  unfold placeOrder, bind. rewrite E, Z.
  unfold emit, perform. cbv beta zeta. fold pair tr2 r. rewrite Hr.
  destruct (fills r) as [|f fs]; [congruence|].
  cbv beta iota zeta. fold d.
  replace ((((tr2 ++ [SaveOrder r]) ++ [SendGrid (MailExecuted pair r)])
              ++ [Telegram (MsgExecuted pair d)]) ++ [GetAccountInfo])%list
    with tr3 by (unfold tr3; rewrite <- !app_assoc; reflexivity).
  destruct (balances (getAccountInfo W tr3)) as [bs|].
  - rewrite Hb. eexists. reflexivity.
  - eexists. reflexivity.
Qed.

(** X13.  When the exchange answers with an order identifier and no fill,
    the firing throws a [TypeError] right after the order was submitted: the
    order is not saved and no notification is sent. *)
Theorem unfilled_order_throws_unnoticed :
  forall (t : trade) (tr tr1 : trace) (u : Js.value),
    resolveSpend W t tr = (Ok u, tr1) ->
    Js.loose_eq_zero u = false ->
    let pair := asset t ++ currency t in
    let r := marketBuy W (tr1 ++ [MarketBuy pair (quantity t) u])%list in
    truthy_orderId r = true ->
    fills r = [] ->
    let cs := calls_of (placeOrder W t) tr in
    (exists m, result_of (placeOrder W t) tr = Threw (TypeError m))
    /\ filter is_marketBuy cs = [MarketBuy pair (quantity t) u]
    /\ filter is_saveOrder cs = []
    /\ filter is_notification cs = [].
Proof.
  intros t tr tr1 u E Z pair r Hr Hf cs.
  pose proof (placeOrder_unfilled t tr tr1 u E Z Hr Hf) as P.
  fold pair in P.
  destruct (resolveSpend_run W t tr) as (u' & cs0 & E' & HF & _).
  rewrite E in E'. injection E' as <- ->.
  apply weight_call_indicator in HF.
  rewrite <- !app_assoc in P.
  destruct (calls_of_run _ _ _ _ P) as [Hc Ho]. fold cs in Hc.
  split; [eauto|].
  rewrite Hc, !filter_app.
  rewrite (filter_indicator_nil is_marketBuy),
          (filter_indicator_nil is_saveOrder),
          (filter_indicator_nil is_notification);
    auto; intros []; simpl; congruence.
Qed.

(** X14.  When the order is filled and the account information fetched
    after it has no balance entry for the trade's currency (or no balances),
    the firing throws a [TypeError] after the order was saved and both
    success notifications were sent; no low-balance warning is sent. *)
Theorem missing_balance_throws_after_success :
  forall (t : trade) (tr tr1 : trace) (u : Js.value),
    resolveSpend W t tr = (Ok u, tr1) ->
    Js.loose_eq_zero u = false ->
    let pair := asset t ++ currency t in
    let tr2 := (tr1 ++ [MarketBuy pair (quantity t) u])%list in
    let r := marketBuy W tr2 in
    let d := getOrderDetails W (asset t) (currency t) r in
    let tr3 := (tr2 ++ [SaveOrder r; SendGrid (MailExecuted pair r);
                        Telegram (MsgExecuted pair d); GetAccountInfo])%list in
    truthy_orderId r = true ->
    fills r <> [] ->
    match balances (getAccountInfo W tr3) with
    | Some bs => find (fun item => b_asset item =? currency t) bs = None
    | None => True
    end ->
    let cs := calls_of (placeOrder W t) tr in
    (exists m, result_of (placeOrder W t) tr = Threw (TypeError m))
    /\ filter is_saveOrder cs = [SaveOrder r]
    /\ filter is_notification cs
       = [SendGrid (MailExecuted pair r); Telegram (MsgExecuted pair d)]
    /\ filter is_lowBalance_message cs = [].
Proof.
  intros t tr tr1 u E Z pair tr2 r d tr3 Hr Hf Hb cs.
  destruct (placeOrder_no_balance t tr tr1 u E Z Hr Hf Hb) as [m P].
  fold pair tr2 r d tr3 in P.
  destruct (resolveSpend_run W t tr) as (u' & cs0 & E' & HF & _).
  rewrite E in E'. injection E' as <- ->.
  apply weight_call_indicator in HF.
  unfold tr3, tr2 in P. rewrite <- !app_assoc in P.
  destruct (calls_of_run _ _ _ _ P) as [Hc Ho]. fold cs in Hc.
  split; [eauto|].
  rewrite Hc, !filter_app.
  rewrite (filter_indicator_nil is_saveOrder),
          (filter_indicator_nil is_notification),
          (filter_indicator_nil is_lowBalance_message);
    auto; intros []; simpl; congruence.
Qed.

(** X15.  Every firing, whatever the collaborators answer, submits at most
    one order and saves at most one order record, and none without an order;
    a firing that returns has sent a notification, and a firing without an
    order has sent the skipped-purchase message and nothing else. *)
Theorem firing_invariants :
  forall (t : trade) (tr : trace),
    let pair := asset t ++ currency t in
    let cs := calls_of (placeOrder W t) tr in
    (List.length (filter is_marketBuy cs) <= 1)%nat
    /\ (List.length (filter is_saveOrder cs)
        <= List.length (filter is_marketBuy cs))%nat
    /\ (result_of (placeOrder W t) tr = Ok tt -> filter is_notification cs <> [])
    /\ (filter is_marketBuy cs = [] ->
        filter is_notification cs = [Telegram (MsgSkipped pair)]).
Proof.
  intros t tr pair cs.
  destruct (resolveSpend_run W t tr) as (u & cs0 & E & HF & _).
  apply weight_call_indicator in HF.
  assert (N1 : filter is_marketBuy cs0 = [])
    by (apply filter_indicator_nil; auto; intros []; simpl; congruence).
  assert (N2 : filter is_saveOrder cs0 = [])
    by (apply filter_indicator_nil; auto; intros []; simpl; congruence).
  assert (N3 : filter is_notification cs0 = [])
    by (apply filter_indicator_nil; auto; intros []; simpl; congruence).
  assert (Done : forall o rest,
            placeOrder W t tr = (o, (tr ++ cs0 ++ rest)%list) ->
            result_of (placeOrder W t) tr = o
            /\ filter is_marketBuy cs = filter is_marketBuy rest
            /\ filter is_saveOrder cs = filter is_saveOrder rest
            /\ filter is_notification cs = filter is_notification rest).
  { intros o rest P. destruct (calls_of_run _ _ _ _ P) as [Hc Ho].
    fold cs in Hc. rewrite Hc, !filter_app, N1, N2, N3. auto. }
  destruct (Js.loose_eq_zero u) eqn:Z.
  { pose proof (placeOrder_skipped W t tr _ _ E Z) as P.
    fold pair in P. rewrite <- app_assoc in P.
    destruct (Done _ _ P) as (_ & -> & -> & ->). cbn.
    repeat split; auto; congruence. }
  set (tr2 := ((tr ++ cs0) ++ [MarketBuy pair (quantity t) u])%list).
  set (r := marketBuy W tr2).
  set (d := getOrderDetails W (asset t) (currency t) r).
  set (tr3 := (tr2 ++ [SaveOrder r; SendGrid (MailExecuted pair r);
                       Telegram (MsgExecuted pair d); GetAccountInfo])%list).
  destruct (truthy_orderId r) eqn:Hr.
  - destruct (fills r) as [|f fs] eqn:Hf.
    + pose proof (placeOrder_unfilled t tr _ u E Z Hr Hf) as P.
      fold pair in P. rewrite <- app_assoc in P.
      destruct (Done _ _ P) as (Ho & -> & -> & ->). cbn.
      repeat split; auto; congruence.
    + assert (Hf' : fills r <> []) by (rewrite Hf; discriminate).
      destruct (balances (getAccountInfo W tr3)) as [bs|] eqn:Hb.
      * destruct (find (fun item => b_asset item =? currency t) bs)
          as [b|] eqn:Hfind.
        -- pose proof (placeOrder_filled W t tr _ u bs b E Z Hr Hf' Hb Hfind) as P.
           fold pair tr2 r d tr3 in P.
           unfold tr3, tr2 in P. rewrite <- !app_assoc in P.
           destruct (Done _ _ P) as (_ & -> & -> & ->).
           destruct (lowBalance (totalCost d) (free b)); cbn;
             repeat split; auto; congruence.
        -- destruct (placeOrder_no_balance t tr _ u E Z Hr Hf') as [m P].
           { fold pair tr2 r d tr3. rewrite Hb. exact Hfind. }
           fold pair tr2 r d tr3 in P.
           unfold tr3, tr2 in P. rewrite <- !app_assoc in P.
           destruct (Done _ _ P) as (_ & -> & -> & ->). cbn.
           repeat split; auto; congruence.
      * destruct (placeOrder_no_balance t tr _ u E Z Hr Hf') as [m P].
        { fold pair tr2 r d tr3. rewrite Hb. exact I. }
        fold pair tr2 r d tr3 in P.
        unfold tr3, tr2 in P. rewrite <- !app_assoc in P.
        destruct (Done _ _ P) as (_ & -> & -> & ->). cbn.
        repeat split; auto; congruence.
  - pose proof (placeOrder_rejected W t tr _ u E Z Hr) as P.
    fold pair tr2 r in P. unfold tr2 in P. rewrite <- !app_assoc in P.
    destruct (Done _ _ P) as (_ & -> & -> & ->). cbn.
    repeat split; auto; congruence.
Qed.

(** X16.  A trade without weighting whose configured [quoteOrderQty] is the
    number zero is never submitted, also when it is sized by [quantity]: the
    firing only sends the skipped-purchase message. *)
Theorem zero_quote_is_skipped :
  forall (t : trade) (x : float) (tr : trace),
    weighted t = false ->
    quoteOrderQty t = Some x ->
    (x =? 0)%float = true ->
    placeOrder W t tr
    = (Ok tt, (tr ++ [Telegram (MsgSkipped (asset t ++ currency t))])%list).
Proof.
  intros t x tr Hw Hq Hx.
  apply (placeOrder_skipped W t tr tr (Js.Num x)).
  - unfold resolveSpend. rewrite Hw, Hq. reflexivity.
  - exact Hx.
Qed.

End Firings.

(* ================================================================== *)
(** ** The sign and the NaN of the adjusted spend *)

Module SignFacts.

Lemma mul_nan_l (x y : float) : Js.isNaN x -> Js.isNaN (x * y).
Proof.
  unfold Js.isNaN; intros Hx. rewrite mul_spec, Hx. reflexivity.
Qed.

Lemma isNaN_eq (x : float) : Js.isNaN x -> x = nan.
Proof.
  intros H. apply Prim2SF_inj. rewrite H. reflexivity.
Qed.

(** Rounding keeps the sign it is given. *)
Lemma binary_round_aux_sign (s : bool) (m e : Z) (l : location) :
  match binary_round_aux prec emax s m e l with
  | S754_nan => True
  | S754_zero s' | S754_infinity s' | S754_finite s' _ _ => s' = s
  end.
Proof.
  unfold binary_round_aux.
  destruct (shr_fexp prec emax m e l) as [mrs e1].
  destruct (shr_fexp prec emax _ e1 loc_Exact) as [mrs' e2].
  destruct (shr_m mrs'); auto.
  destruct (e2 <=? emax - prec)%Z; auto.
Qed.

Lemma mul_nonneg (x y : float) : nonneg x -> nonneg y -> nonneg (x * y).
Proof.
  unfold nonneg. rewrite mul_spec. unfold SF64mul, SFmul.
  destruct (Prim2SF x) as [sx|sx| |sx mx ex], (Prim2SF y) as [sy|sy| |sy my ey];
    intros Hx Hy; subst; auto.
  apply (binary_round_aux_sign false).
Qed.

Lemma square_nonneg (x : float) : nonneg (x * x).
Proof.
  unfold nonneg. rewrite mul_spec. unfold SF64mul, SFmul.
  destruct (Prim2SF x) as [sx|sx| |sx mx ex]; auto using xorb_nilpotent.
  rewrite xorb_nilpotent. apply (binary_round_aux_sign false).
Qed.

Lemma pos_nonneg (x : float) : (0 <? x)%float = true -> nonneg x.
Proof.
  unfold nonneg. rewrite ltb_spec. unfold SFltb, SFcompare.
  change (Prim2SF 0) with (S754_zero false).
  destruct (Prim2SF x) as [s|s| |s m e]; try destruct s; simpl; congruence.
Qed.

Lemma nearest_hundredths_nonneg (m : positive) (e : Z) :
  (0 <= Js.nearest_hundredths m e)%Z.
Proof.
  unfold Js.nearest_hundredths. destruct (0 <=? e)%Z eqn:E.
  - apply Z.leb_le in E.
    assert (0 < 2 ^ e)%Z by (apply Z.pow_pos_nonneg; lia). nia.
  - apply Z.leb_gt in E.
    assert (0 < 2 ^ (- e))%Z by (apply Z.pow_pos_nonneg; lia).
    assert (0 < 2 ^ (- e + 1))%Z by (apply Z.pow_pos_nonneg; lia).
    apply Z.div_pos; lia.
Qed.

Lemma toFixed2_nonneg (x : float) : nonneg x -> fixed_nonneg (Js.toFixed2 x).
Proof.
  unfold nonneg, Js.toFixed2.
  destruct (Prim2SF x) as [s|s| |s m e] eqn:E; intros H.
  - simpl. split; [reflexivity | lia].
  - simpl. unfold nonneg. now rewrite E.
  - simpl. unfold nonneg. now rewrite E.
  - destruct (1e21 <=? abs x)%float.
    + simpl. unfold nonneg. now rewrite E.
    + simpl. split; [exact H | apply nearest_hundredths_nonneg].
Qed.

End SignFacts.

(** X17.  For a [quoteOrderQty] without a minus sign the adjusted spend has
    none either, whatever the weight, the moving average and the price are:
    the ATH factor is a square and the Mayer factor is clamped, so the
    [toFixed] string is never a negative amount. *)
Theorem adjusted_spend_not_negative :
  forall (q : option float) (w : weightSpec) (sma : option float) (p : float),
    nonneg (Js.to_number q) ->
    nonneg (athFactor (weigh q w sma p))
    /\ nonneg (mayerFactor (weigh q w sma p))
    /\ fixed_nonneg (updatedQuoteOrderQty (weigh q w sma p)).
Proof.
  intros q w sma0 p Hq.
  assert (Ha : nonneg (athFactor (weigh q w sma0 p)))
    by (unfold weigh; cbn [athFactor]; apply SignFacts.square_nonneg).
  assert (Hm : nonneg (mayerFactor (weigh q w sma0 p))).
  { unfold weigh; cbn [mayerFactor].
    match goal with
    | |- context [if (0 <? ?x)%float then _ else _] =>
        destruct (0 <? x)%float eqn:E
    end.
    - now apply SignFacts.pos_nonneg.
    - reflexivity. }
  split; [exact Ha|]. split; [exact Hm|].
  unfold weigh in *. cbn [athFactor mayerFactor updatedQuoteOrderQty] in *.
  apply SignFacts.toFixed2_nonneg.
  apply SignFacts.mul_nonneg; [apply SignFacts.mul_nonneg|]; assumption.
Qed.

(** The theorem at the quoteOrderQty 100 of the example trade. *)
Lemma adjusted_spend_not_negative_witness :
  nonneg (Js.to_number (Some 100%float))
  /\ fixed_nonneg
       (updatedQuoteOrderQty
          (weigh (Some 100%float) Example.weight_example (Some 20000%float) 25000)).
Proof.
  assert (H : nonneg (Js.to_number (Some 100%float))) by reflexivity.
  split; [exact H|].
  destruct (adjusted_spend_not_negative (Some 100%float) Example.weight_example
              (Some 20000%float) 25000%float H) as (_ & _ & Hf).
  exact Hf.
Defined.

(** X18.  A weighted USD trade that is sized by [quantity] and has no
    [quoteOrderQty] is weighted all the same: the product is NaN, the string
    NaN does not compare equal to zero, and the order is submitted with the
    configured quantity together with the string NaN as its
    [quoteOrderQty]. *)
Theorem weighted_quantity_trade_sends_NaN :
  forall (W : world) (t : trade) (w : weightSpec) (tr : trace),
    weight t = Some w ->
    currency t = "USD" ->
    quoteOrderQty t = None ->
    let amount := Js.Str (Js.FixedToString nan) in
    let order := MarketBuy (asset t ++ currency t) (quantity t) amount in
    result_of (calculateWeight W t) tr = Ok amount
    /\ Js.fixed_string (Js.FixedToString nan) = Some "NaN"
    /\ exists rest,
         calls_of (placeOrder W t) tr
         = (calls_of (calculateWeight W t) tr ++ order :: rest)%list.
Proof.
  intros W t w tr Hw Hcur Hq amount order.
  destruct (calculateWeight_run W t w tr Hw) as (v & more & _ & _ & E).
  assert (Hnan : forall s p,
            updatedQuoteOrderQty (weigh None w s p) = Js.FixedToString nan).
  { intros s p. unfold weigh; cbn [updatedQuoteOrderQty Js.to_number].
    match goal with
    | |- Js.toFixed2 ?x = _ =>
        assert (Hx : x = nan)
          by (apply SignFacts.isNaN_eq; do 2 apply SignFacts.mul_nan_l;
              apply FloatFacts.nan_isNaN);
        rewrite Hx
    end.
    reflexivity. }
  rewrite Hq, Hnan in E. fold amount in E.
  destruct (calls_of_run _ _ _ _ E) as [Hcw Hrw].
  split; [exact Hrw|]. split; [reflexivity|].
  destruct (placeOrder_run W t tr)
    as (o & u & cs & rest & _ & HF & HW & P & HO & HZ).
  assert (Hwt : weighted t = true)
    by (unfold weighted; rewrite Hw, Hcur; reflexivity).
  rewrite Hwt in HW. destruct HW as (_ & _ & Hr & Hcs).
  rewrite Hrw in Hr. injection Hr as <-.
  change (Js.loose_eq_zero amount) with false in HZ.
  destruct HZ as [rest' ->].
  destruct (calls_of_run _ _ _ _ P) as [Hc _].
  fold order in Hc.
  exists rest'. rewrite Hc, Hcs. reflexivity.
Qed.

(** The theorem at a weighted trade of one BTC. *)
Lemma weighted_quantity_trade_witness :
  weight Scenario.trade_weighted_quantity = Some Example.weight_example
  /\ currency Scenario.trade_weighted_quantity = "USD"
  /\ quoteOrderQty Scenario.trade_weighted_quantity = None
  /\ result_of (calculateWeight Example.world_filled
                  Scenario.trade_weighted_quantity) []
     = Ok (Js.Str (Js.FixedToString nan))
  /\ exists rest,
       calls_of (placeOrder Example.world_filled
                   Scenario.trade_weighted_quantity) []
       = (calls_of (calculateWeight Example.world_filled
                      Scenario.trade_weighted_quantity) []
          ++ MarketBuy "BTCUSD" (Some 1%float) (Js.Str (Js.FixedToString nan))
             :: rest)%list.
Proof.
  split; [reflexivity|]. split; [reflexivity|]. split; [reflexivity|].
  destruct (weighted_quantity_trade_sends_NaN Example.world_filled
              Scenario.trade_weighted_quantity Example.weight_example []
              eq_refl eq_refl eq_refl) as (H1 & _ & H2).
  split; [exact H1 | exact H2].
Defined.

(* ================================================================== *)
(** ** The two listings of the order executor *)

(** The executor without weighting starts every firing with the order for
    the configured sizes. *)
Lemma placeOrder_unweighted_run (W : world) (t : trade) (tr : trace) :
  exists o rest,
    placeOrder_unweighted W t tr
    = (o, (tr ++ MarketBuy (asset t ++ currency t) (quantity t)
                   (Js.of_option (quoteOrderQty t)) :: rest)%list).
Proof.
  unfold placeOrder_unweighted, bind, emit, perform. cbv beta zeta.
  set (order := MarketBuy (asset t ++ currency t) (quantity t)
                  (Js.of_option (quoteOrderQty t))).
  set (r := marketBuy W (tr ++ [order])%list).
  destruct (truthy_orderId r).
  - destruct (fills r) as [|f fs].
    + eexists _, []. reflexivity.
    + cbv beta iota zeta.
      match goal with
      | |- context [balances (getAccountInfo W ?h)] =>
          destruct (balances (getAccountInfo W h)) as [bs|]
      end.
      * destruct (find _ bs) as [b|].
        -- destruct (lowBalance _ _); eexists _, _; unfold ret;
             rewrite <- !app_assoc; reflexivity.
        -- eexists _, _. unfold throw. rewrite <- !app_assoc. reflexivity.
      * eexists _, _. unfold throw. rewrite <- !app_assoc. reflexivity.
  - eexists _, _. rewrite <- !app_assoc. reflexivity.
Qed.

(** X19.  The executor with weighting does on a trade that is not weighted
    exactly what the executor without weighting does, unless the configured
    [quoteOrderQty] compares equal to zero: the earlier executor submits that
    order as every other, the later one skips it. *)
Theorem weighting_keeps_unweighted_firings :
  forall (W : world) (t : trade) (tr : trace),
    let pair := asset t ++ currency t in
    let static := Js.of_option (quoteOrderQty t) in
    (weighted t = false -> Js.loose_eq_zero static = false ->
     placeOrder W t tr = placeOrder_unweighted W t tr)
    /\ (exists rest,
          calls_of (placeOrder_unweighted W t) tr
          = MarketBuy pair (quantity t) static :: rest)
    /\ (weighted t = false -> Js.loose_eq_zero static = true ->
        calls_of (placeOrder W t) tr = [Telegram (MsgSkipped pair)]).
Proof.
  intros W t tr pair static. split; [|split].
  - intros Hw Hz. unfold placeOrder, placeOrder_unweighted, resolveSpend.
    rewrite Hw. unfold bind at 1. unfold ret. fold static. rewrite Hz.
    reflexivity.
  - destruct (placeOrder_unweighted_run W t tr) as (o & rest & E).
    destruct (calls_of_run _ _ _ _ E) as [Hc _]. eauto.
  - intros Hw Hz.
    assert (E : resolveSpend W t tr = (Ok static, tr))
      by (unfold resolveSpend; rewrite Hw; reflexivity).
    pose proof (placeOrder_skipped W t tr tr static E Hz) as P.
    destruct (calls_of_run _ _ _ _ P) as [Hc _]. exact Hc.
Qed.

(* ================================================================== *)
(** ** The properties above at concrete collaborators *)

(** X1 at an indicator source that answers 20000. *)
Lemma getSMA_first_answer_witness :
  getSMA Example.world_filled "BTC" "USD" "1d" 200 []
  = (Ok (Some 20000%float), [Fetch (getSMA_params "BTC" "USD" "1d" 200)]).
Proof.
  apply (getSMA_first_answer Example.world_filled "BTC" "USD" "1d" 200 []
           {| error := None; value := Some 20000%float |});
    reflexivity.
Defined.

(** X2 at an indicator source that reports an error once. *)
Lemma getSMA_retry_after_error_witness :
  getSMA Scenario.world_flaky "BTC" "USD" "1d" 200 []
  = (Ok (Some 21000%float),
     [Fetch (getSMA_params "BTC" "USD" "1d" 200); Sleep 15000;
      Fetch (getSMA_params "BTC" "USD" "1d" 200)]).
Proof.
  apply (getSMA_retry_after_error Scenario.world_flaky "BTC" "USD" "1d" 200 []
           {| error := Some "rate limit"; value := None |}
           {| error := None; value := Some 21000%float |} "rate limit");
    reflexivity.
Defined.

(** X3 at an indicator source whose first fetch throws. *)
Lemma getSMA_retry_after_exception_witness :
  getSMA Scenario.world_dropped "BTC" "USD" "1d" 200 []
  = (Ok (Some 21000%float),
     [Fetch (getSMA_params "BTC" "USD" "1d" 200);
      Fetch (getSMA_params "BTC" "USD" "1d" 200)]).
Proof.
  apply (getSMA_retry_after_exception Scenario.world_dropped
           "BTC" "USD" "1d" 200 []
           {| error := None; value := Some 21000%float |});
    reflexivity.
Defined.

(** X4 at an indicator source that always reports an error. *)
Lemma getSMA_gives_up_witness :
  getSMA Scenario.world_limited "BTC" "USD" "1d" 200 []
  = (Ok None,
     [Fetch (getSMA_params "BTC" "USD" "1d" 200); Sleep 15000;
      Fetch (getSMA_params "BTC" "USD" "1d" 200); Sleep 30000]).
Proof.
  apply (getSMA_gives_up_after_two_errors Scenario.world_limited
           "BTC" "USD" "1d" 200 []
           {| error := Some "rate limit"; value := None |}
           {| error := Some "rate limit"; value := None |}
           "rate limit" "rate limit");
    reflexivity.
Defined.

(** X7 at an exchange that refuses the key. *)
Lemma runBot_connectivity_error_witness :
  checkForParameters (Example.configured [Example.trade_static]) = true
  /\ runBot Scenario.world_refused (Example.configured [Example.trade_static]) []
     = (Threw (Error "Invalid API-key, IP, or permissions for action."),
        [GetAccountInfo]).
Proof.
  split; [reflexivity|].
  apply (runBot_connectivity_error Scenario.world_refused
           (Example.configured [Example.trade_static]) []
           "Invalid API-key, IP, or permissions for action.");
    [reflexivity | reflexivity | discriminate].
Defined.

(** X8 at an account that may not trade. *)
Lemma runBot_trading_disabled_witness :
  result_of (checkForBinanceConnectivity Scenario.world_disabled) [] = Ok false
  /\ runBot Scenario.world_disabled (Example.configured [Example.trade_static]) []
     = (Ok tt, [GetAccountInfo]).
Proof.
  split; [reflexivity|].
  apply (runBot_trading_disabled Scenario.world_disabled
           (Example.configured [Example.trade_static]) []);
    reflexivity.
Defined.

(** X10 at a list of two scheduled trades, and at a schedule with the
    minute 60. *)
Lemma runTrades_scheduled_only_witness :
  describe Example.world_filled Example.trade_scheduled = Ok "At 05:00 PM"
  /\ runTrades Example.world_filled
       [Example.trade_scheduled; Example.trade_scheduled] []
     = (Ok tt,
        [ScheduleJob "0 17 * * *" Example.trade_scheduled;
         ScheduleJob "0 17 * * *" Example.trade_scheduled])
  /\ runTrades Example.world_filled
       [Scenario.trade_minute_sixty; Example.trade_scheduled] []
     = (Threw (Error "Error: cannot describe 60 17 * * *"), []).
Proof.
  split; [reflexivity|].
  assert (H : Forall (fun t => invalid t = false /\ conflicting t = false
                               /\ has_schedule t <> None
                               /\ exists text,
                                    describe Example.world_filled t = Ok text)
                [Example.trade_scheduled; Example.trade_scheduled]).
  { repeat constructor; try discriminate; eexists; reflexivity. }
  destruct (runTrades_scheduled_only Example.world_filled
              [Example.trade_scheduled; Example.trade_scheduled] [] H)
    as (H1 & _ & H2).
  split; [exact H1|].
  apply H2; reflexivity.
Defined.


(** X13 at an order that comes back with an identifier and no fill. *)
Lemma unfilled_order_witness :
  resolveSpend Scenario.world_unfilled Example.trade_static []
  = (Ok (Js.Num 100), [])
  /\ fills (marketBuy Scenario.world_unfilled
              [MarketBuy "BTCUSD" None (Js.Num 100)]) = []
  /\ filter is_notification
       (calls_of (placeOrder Scenario.world_unfilled Example.trade_static) [])
     = []
  /\ filter is_marketBuy
       (calls_of (placeOrder Scenario.world_unfilled Example.trade_static) [])
     = [MarketBuy "BTCUSD" None (Js.Num 100)].
Proof.
  split; [reflexivity|]. split; [reflexivity|].
  destruct (unfilled_order_throws_unnoticed Scenario.world_unfilled
              Example.trade_static [] [] (Js.Num 100)
              eq_refl eq_refl eq_refl eq_refl) as (_ & Hb & _ & Hn).
  split; [exact Hn | exact Hb].
Defined.

(** X14 at a trade in EUR on an account with BTC and USD balances. *)
Lemma missing_balance_witness :
  resolveSpend Example.world_filled Scenario.trade_euro []
  = (Ok (Js.Num 100), [])
  /\ filter is_saveOrder
       (calls_of (placeOrder Example.world_filled Scenario.trade_euro) [])
     = [SaveOrder Example.order_filled]
  /\ filter is_lowBalance_message
       (calls_of (placeOrder Example.world_filled Scenario.trade_euro) [])
     = [].
Proof.
  split; [reflexivity|].
  destruct (missing_balance_throws_after_success Example.world_filled
              Scenario.trade_euro [] [] (Js.Num 100)
              eq_refl eq_refl eq_refl ltac:(discriminate) eq_refl)
    as (_ & Hs & _ & Hl).
  split; [exact Hs | exact Hl].
Defined.

(** X16 at a trade of one BTC whose [quoteOrderQty] is 0: the start-up loop
    accepts it and its firing is skipped. *)
Lemma zero_quote_witness :
  invalid Scenario.trade_zero_quote = false
  /\ conflicting Scenario.trade_zero_quote = false
  /\ placeOrder Example.world_filled Scenario.trade_zero_quote []
     = (Ok tt, [Telegram (MsgSkipped "BTCUSD")]).
Proof.
  split; [reflexivity|]. split; [reflexivity|].
  apply (zero_quote_is_skipped Example.world_filled Scenario.trade_zero_quote
           0%float []); reflexivity.
Defined.

(* ================================================================== *)
(** ** A firing without a bid price *)

(** With a NaN price the ATH factor, and with it the product, is NaN. *)
Lemma spend_without_price (q : option float) (w : weightSpec)
    (sma : option float) (p : float) :
  Js.isNaN p ->
  updatedQuoteOrderQty (weigh q w sma p) = Js.FixedToString nan.
Proof.
  intros Hp. unfold weigh; cbn [updatedQuoteOrderQty].
  match goal with
  | |- Js.toFixed2 ?x = _ => assert (Hx : x = nan)
  end.
  { apply SignFacts.isNaN_eq, FloatFacts.mul_nan_r, FloatFacts.mul_nan_r,
      FloatFacts.sub_nan_r, FloatFacts.div_nan_l, Hp. }
  rewrite Hx. reflexivity.
Qed.

(** X20.  When the ticker gives no usable bid price (the price is NaN in
    the arithmetic), the firing of a weighted USD trade is not skipped, unlike
    the firing without a moving average: the adjusted spend is the string
    NaN, and the order is submitted with it. *)
Theorem missing_price_sends_NaN :
  forall (W : world) (t : trade) (w : weightSpec) (tr : trace),
    weight t = Some w ->
    currency t = "USD" ->
    (forall h, Js.isNaN (bidPrice W h)) ->
    let amount := Js.Str (Js.FixedToString nan) in
    let order := MarketBuy (asset t ++ currency t) (quantity t) amount in
    result_of (calculateWeight W t) tr = Ok amount
    /\ Js.loose_eq_zero amount = false
    /\ exists rest,
         calls_of (placeOrder W t) tr
         = (calls_of (calculateWeight W t) tr ++ order :: rest)%list.
Proof.
  intros W t w tr Hw Hcur Hp amount order.
  destruct (calculateWeight_run W t w tr Hw) as (v & more & _ & _ & E).
  rewrite spend_without_price in E by apply Hp. fold amount in E.
  destruct (calls_of_run _ _ _ _ E) as [Hcw Hrw].
  split; [exact Hrw|]. split; [reflexivity|].
  destruct (placeOrder_run W t tr)
    as (o & u & cs & rest & _ & _ & HW & P & _ & HZ).
  assert (Hwt : weighted t = true)
    by (unfold weighted; rewrite Hw, Hcur; reflexivity).
  rewrite Hwt in HW. destruct HW as (_ & _ & Hr & Hcs).
  rewrite Hrw in Hr. injection Hr as <-.
  change (Js.loose_eq_zero amount) with false in HZ.
  destruct HZ as [rest' ->].
  destruct (calls_of_run _ _ _ _ P) as [Hc _]. fold order in Hc.
  exists rest'. rewrite Hc, Hcs. reflexivity.
Qed.

(** X20 at a ticker without a bid price. *)
Lemma missing_price_witness :
  bidPrice Scenario.world_no_ticker [] = nan
  /\ result_of (calculateWeight Scenario.world_no_ticker Example.trade_weighted) []
     = Ok (Js.Str (Js.FixedToString nan))
  /\ exists rest,
       calls_of (placeOrder Scenario.world_no_ticker Example.trade_weighted) []
       = (calls_of (calculateWeight Scenario.world_no_ticker
                      Example.trade_weighted) []
          ++ MarketBuy "BTCUSD" None (Js.Str (Js.FixedToString nan)) :: rest)%list.
Proof.
  split; [reflexivity|].
  destruct (missing_price_sends_NaN Scenario.world_no_ticker
              Example.trade_weighted Example.weight_example []
              eq_refl eq_refl (fun _ => eq_refl)) as (H1 & _ & H2).
  split; [exact H1 | exact H2].
Defined.
